(** * litter_assessment_service.api: the prediction orchestration pipeline

    A shallow embedding of [src/litter_assessment_service/api.py].

    The file system, the process-wide model handles and the calls made to
    the collaborators (classification, dataframe, plotting, preprocessing,
    face_detection, the rclone subprocess, the console) are explicit: a
    computation takes a [state], and gives back a result or an exception,
    the next state and the list of events it emitted.  The collaborators
    that are not part of api.py are parameters of the development. *)

From Stdlib Require Import String Ascii List Bool Arith Lia Permutation.
Import ListNotations.
Open Scope list_scope.
Open Scope string_scope.

(** ** Python strings and [os.path] (posixpath) *)

Module Py.

Definition slash : ascii := "/"%char.

(** [s.startswith('/')] *)
Definition starts_with_slash (s : string) : bool :=
  match s with
  | String c _ => Ascii.eqb c slash
  | EmptyString => false
  end.

(** [s.endswith(suf)] *)
Definition endswith (s suf : string) : bool :=
  String.eqb (substring (String.length s - String.length suf)
                        (String.length suf) s) suf.

(** The characters after the last '/' seen so far; [cur] is the component
    being read. *)
Fixpoint after_last_slash (cur p : string) : string :=
  match p with
  | EmptyString => cur
  | String c p' =>
      if Ascii.eqb c slash then after_last_slash EmptyString p'
      else after_last_slash (cur ++ String c EmptyString) p'
  end.

(** [os.path.basename(p)]: [p[p.rfind('/') + 1:]] *)
Definition basename (p : string) : string := after_last_slash EmptyString p.

(** [os.path.join(a, b)] *)
Definition path_join (a b : string) : string :=
  if starts_with_slash b then b
  else if (String.eqb a EmptyString || endswith a "/")%bool then a ++ b
  else a ++ "/" ++ b.

(** [s[:-4]]: everything but the last four characters, the empty string when
    [s] has fewer than four. *)
Definition drop_last4 (s : string) : string :=
  substring 0 (String.length s - 4) s.

(** [s] with the prefix [pre] removed, when it starts with it. *)
Fixpoint strip_prefix (pre s : string) : option string :=
  match pre, s with
  | EmptyString, _ => Some s
  | String a pre', String b s' =>
      if Ascii.eqb a b then strip_prefix pre' s' else None
  | String _ _, EmptyString => None
  end.

(** The characters before the first '/'. *)
Fixpoint first_component (s : string) : string :=
  match s with
  | EmptyString => EmptyString
  | String c s' =>
      if Ascii.eqb c slash then EmptyString else String c (first_component s')
  end.

Fixpoint has_slash (s : string) : bool :=
  match s with
  | EmptyString => false
  | String c s' => (Ascii.eqb c slash || has_slash s')%bool
  end.

(** The directories above the entry [n] of an archive, the nearest last:
    for 'd/e/a.jpg', 'd' and 'd/e'.  [cur]: the path read so far. *)
Fixpoint parent_dirs (cur n : string) : list string :=
  match n with
  | EmptyString => []
  | String c n' =>
      if Ascii.eqb c slash then cur :: parent_dirs (cur ++ "/") n'
      else parent_dirs (cur ++ String c EmptyString) n'
  end.

(** A NUL character occurs in [s]. *)
Fixpoint has_nul (s : string) : bool :=
  match s with
  | EmptyString => false
  | String c s' => (Ascii.eqb c "000"%char || has_nul s')%bool
  end.

Fixpoint repeat_char (c : ascii) (n : nat) : string :=
  match n with
  | O => EmptyString
  | S n' => String c (repeat_char c n')
  end.

End Py.

(** ** Files *)

Inductive exn : Type :=
| TypeError
| NameError
| FileNotFoundError
| IsADirectoryError
| BadZipFile
| UnidentifiedImageError
| ValueError.

Inductive result (A : Type) : Type :=
| Ok (a : A)
| Raise (e : exn).
Arguments Ok {A} a.
Arguments Raise {A} e.

(** ** The collaborators

    [classification], [dataframe], [plotting] and [preprocessing] are
    modules of the package that api.py imports; PIL, numpy and matplotlib
    are libraries.  Their values and functions are the fields of this
    interface; they are total: an exception raised inside one of them is
    outside the model, except for an image that does not decode.  The
    interface also holds what the file system decides: the order in which
    it enumerates a directory. *)

Class Collaborators : Type := {
  raw : Type;          (* the bytes of a file *)
  image : Type;        (* a numpy array *)
  model : Type;        (* a loaded CNN *)
  cmatrix : Type;      (* [results_PLD.c_matrix] *)
  pld_result : Type;
  plq_result : Type;
  dframe : Type;       (* a pandas DataFrame *)
  figure : Type;       (* a matplotlib figure *)
  (** [np.array(Image.open(...))] on the bytes of a file; [None] when PIL
      does not identify an image *)
  decode : raw -> option image;
  (** [arr.astype(np.uint8)] *)
  astype_uint8 : image -> image;
  (** [preprocessing.warm(model_name)] *)
  preprocessing_warm : string -> model;
  (** [classification.PLD_result(image, image_names, model)] *)
  PLD_result : image -> list string -> model -> pld_result;
  c_matrix : pld_result -> cmatrix;
  (** [classification.PLQ_result(c_matrix, image, image_names, model)] *)
  PLQ_result : cmatrix -> image -> list string -> model -> plq_result;
  (** [dataframe.PLD_df(results, tag).get_dataframe()] *)
  PLD_df : pld_result -> string -> dframe;
  (** [dataframe.PLQ_df(results, tag).get_dataframe()] *)
  PLQ_df : plq_result -> string -> dframe;
  (** [ResultPlot(results, type).get_plot()], on the results of either stage *)
  ResultPlot : pld_result + plq_result -> string -> figure;
  (** the bytes [fig.savefig] writes *)
  savefig_bytes : figure -> raw;
  (** the file name a [bytes] object spells when it is given where a path
      is expected; [None] when it holds a NUL character *)
  bytes_as_path : raw -> option string;
  (** the order in which the file system enumerates the names of a
      directory: some order, and nothing is known of it *)
  listdir_order : list string -> list string;
  listdir_order_perm : forall l, Permutation (listdir_order l) l
}.

Section Service.

Context {C : Collaborators}.

(** What a file holds.  An archive is given by its entries, the name of an
    entry being its normalised path relative to the root of the archive; a
    directory entry holds [Dir]. *)
#[warnings="-register-all"] Inductive content : Type :=
| Raw (bytes : raw)
| Zip (members : list (string * content))
| Xlsx (sheets : list (string * dframe))
| Dir.

Definition fsmap : Type := list (string * content).

Fixpoint fs_lookup (p : string) (fs : fsmap) : option content :=
  match fs with
  | [] => None
  | (q, c) :: fs' => if String.eqb q p then Some c else fs_lookup p fs'
  end.

(** Writing a file creates it or replaces what it held. *)
Fixpoint fs_write (p : string) (c : content) (fs : fsmap) : fsmap :=
  match fs with
  | [] => [(p, c)]
  | (q, d) :: fs' =>
      if String.eqb q p then (p, c) :: fs' else (q, d) :: fs_write p c fs'
  end.

(** The entries below directory [d], with their paths relative to [d]. *)
Fixpoint files_under (d : string) (fs : fsmap) : list (string * content) :=
  match fs with
  | [] => []
  | (p, c) :: fs' =>
      match Py.strip_prefix (d ++ "/") p with
      | Some rel => (rel, c) :: files_under d fs'
      | None => files_under d fs'
      end
  end.

Fixpoint dedup (l : list string) : list string :=
  match l with
  | [] => []
  | x :: l' =>
      if existsb (String.eqb x) l' then dedup l' else x :: dedup l'
  end.

(** [os.listdir(d)]: the names of the entries directly in [d], in the
    order of the file system. *)
Definition listdir (d : string) (fs : fsmap) : list string :=
  listdir_order
    (dedup (map (fun e => Py.first_component (fst e)) (files_under d fs))).

Definition max_path_length (fs : fsmap) : nat :=
  fold_right (fun e n => Nat.max (String.length (fst e)) n) 0 fs.

(** The name [tempfile.mkdtemp] picks.  Its contract is that the directory
    did not exist; the model takes a name longer than every path of the
    file system. *)
Definition mkdtemp_name (fs : fsmap) : string :=
  "/tmp/tmp" ++ Py.repeat_char "x"%char (S (max_path_length fs)).

(** [os.makedirs(p, exist_ok=True)] for one directory whose parent is
    there. *)
Definition fs_mkdir (p : string) (fs : fsmap) : fsmap :=
  match fs_lookup p fs with
  | Some _ => fs
  | None => fs_write p Dir fs
  end.

(** [ZipFile.extract] of one entry into [d]: the directories above it are
    made, then the entry is written, a directory entry as a directory. *)
Definition extract_member (d : string) (e : string * content) (fs : fsmap)
  : fsmap :=
  let fs' :=
    fold_left (fun acc p => fs_mkdir (d ++ "/" ++ p) acc)
      (Py.parent_dirs "" (fst e)) fs in
  match snd e with
  | Dir => fs_mkdir (d ++ "/" ++ fst e) fs'
  | c => fs_write (d ++ "/" ++ fst e) c fs'
  end.

(** [ZipFile.extractall(d)] *)
Fixpoint extractall (members : list (string * content)) (d : string)
    (fs : fsmap) : fsmap :=
  match members with
  | [] => fs
  | e :: ms => extractall ms d (extract_member d e fs)
  end.

(** The entries below [d] as [os.walk] meets them: in the order the file
    system enumerates their names. *)
Definition walk (d : string) (fs : fsmap) : list (string * content) :=
  let entries := files_under d fs in
  flat_map
    (fun n => match fs_lookup n entries with
              | Some c => [(n, c)]
              | None => []
              end)
    (listdir_order (map fst entries)).

Arguments walk : simpl never.

(** [shutil.make_archive(base, format='zip', root_dir=root)] writes
    [base + '.zip'] with everything below [root]. *)
Definition make_archive (base root : string) (fs : fsmap) : fsmap :=
  fs_write (base ++ ".zip") (Zip (walk root fs)) fs.


(** A value bound to [file] in the loop of [predict]: a path (a [str]) or the
    bytes of an image. *)
Inductive pyfile : Type :=
| PyPath (p : string)
| PyBytes (b : raw).

(** [face_detection.anonymize_images(image_files, image_names)]: gives the
    replacements of the images, and may write files to do so. *)
Class FaceDetection : Type := {
  anonymize_images :
    list pyfile -> list string -> fsmap -> list pyfile * fsmap
}.

Context {F : FaceDetection}.

(** ** State, events and the monad *)

(** The file system and the module-level names [model_PLD] and [model_PLQ]
    ([None]: the name is not bound yet). *)
Record state : Type := mkState {
  st_fs : fsmap;
  model_PLD : option model;
  model_PLQ : option model
}.

(** The calls a request makes to its collaborators and to the outside. *)
Inductive event : Type :=
| EvWarm (model_name : string)
| EvAnonymize (names : list string)
| EvLoad (file : pyfile)
| EvPLD (img : image) (names : list string) (m : model)
| EvPLDdf (res : pld_result)
| EvPLQ (cm : cmatrix) (img : image) (names : list string) (m : model)
| EvPLQdf (res : plq_result)
| EvSavefig (path : string)
| EvExcel (path : string) (sheet_names : list string)
| EvArchive (zip_path : string)
| EvOpen (path : string)
| EvRclone (frompath topath : string)
| EvPrint (msg : string).

Definition M (A : Type) : Type := state -> result A * state * list event.

Definition ret {A} (a : A) : M A := fun s => (Ok a, s, []).

Definition raise {A} (e : exn) : M A := fun s => (Raise e, s, []).

Definition bind {A B} (m : M A) (k : A -> M B) : M B :=
  fun s =>
    match m s with
    | (Ok a, s1, t1) =>
        match k a s1 with
        | (r, s2, t2) => (r, s2, (t1 ++ t2)%list)
        end
    | (Raise e, s1, t1) => (Raise e, s1, t1)
    end.

Definition emit (e : event) : M unit := fun s => (Ok tt, s, [e]).

Definition get_fs : M fsmap := fun s => (Ok (st_fs s), s, []).

Definition put_fs (fs : fsmap) : M unit :=
  fun s => (Ok tt, mkState fs (model_PLD s) (model_PLQ s), []).

Notation "x <- m ;; k" := (bind m (fun x => k))
  (at level 61, m at next level, right associativity).
Notation "m ;;; k" := (bind m (fun _ => k))
  (at level 61, right associativity).

(** The outcome, the final state and the events of a run. *)
Definition outcome {A} (r : result A * state * list event) : result A :=
  fst (fst r).
Definition final {A} (r : result A * state * list event) : state :=
  snd (fst r).
Definition events {A} (r : result A * state * list event) : list event :=
  snd r.

(** ** Library calls *)

(** [tempfile.mkdtemp()] *)
Definition mkdtemp : M string :=
  fs <- get_fs ;;
  let d := mkdtemp_name fs in
  put_fs (fs_write d Dir fs) ;;;
  ret d.

(** [ZipFile(path, 'r')], as the entries of the archive *)
Definition ZipFile (path : string) : M (list (string * content)) :=
  fs <- get_fs ;;
  match fs_lookup path fs with
  | Some (Zip members) => ret members
  | Some Dir => raise IsADirectoryError
  | Some _ => raise BadZipFile
  | None => raise FileNotFoundError
  end.

(** The bytes of the file at [path], as [open(path, 'rb')] reads them. *)
Definition read_file (path : string) : M content :=
  fs <- get_fs ;;
  match fs_lookup path fs with
  | Some Dir => raise IsADirectoryError
  | Some c => ret c
  | None => raise FileNotFoundError
  end.

(** An open binary file. *)
Record handle : Type := mkHandle {
  h_path : string;
  h_content : content
}.

(** [open(path, 'rb')] *)
Definition open_rb (path : string) : M handle :=
  c <- read_file path ;;
  emit (EvOpen path) ;;;
  ret (mkHandle path c).

Definition decode_bytes (b : raw) : M image :=
  match decode b with
  | Some img => ret img
  | None => raise UnidentifiedImageError
  end.

(** [np.array(Image.open(path))] for the path of a file *)
Definition open_image_file (p : string) : M image :=
  c <- read_file p ;;
  match c with
  | Raw b => decode_bytes b
  | _ => raise UnidentifiedImageError
  end.

(** [np.array(Image.open(file))].  PIL takes a [str] and a [bytes] object
    alike as the name of the file to open; a name with a NUL character is a
    ValueError of [open]. *)
Definition Image_open (file : pyfile) : M image :=
  match file with
  | PyPath p => open_image_file p
  | PyBytes b =>
      match bytes_as_path b with
      | Some p => open_image_file p
      | None => raise ValueError
      end
  end.

(** [fig.savefig(path)] *)
Definition savefig (fig : figure) (path : string) : M unit :=
  fs <- get_fs ;;
  put_fs (fs_write path (Raw (savefig_bytes fig)) fs) ;;;
  emit (EvSavefig path).


(** ** api.py *)

(** The upload that DEEPaaS hands over as [kwargs["files"]]: [filename] is
    the path of the stored file. *)
Record UploadedFile : Type := mkUpload {
  content_type : string;
  filename : string;
  original_filename : string
}.

Record kwargs : Type := mkKwargs {
  files : UploadedFile;
  face_detection : bool;
  PLD_plot : bool;
  PLQ_plot : bool;
  output_type : string
}.

Definition model_name_PLD : string := "litter-assessment/models/PLD_CNN.h5".
Definition model_name_PLQ : string := "litter-assessment/models/PLQ_CNN.h5".

(** [get_input_data(data)] *)
Definition get_input_data (data : UploadedFile)
  : M (list string * list pyfile) :=
  if content_type data =? "application/zip" then
    tmp_input <- mkdtemp ;;
    zip_file <- ZipFile (filename data) ;;
    fs <- get_fs ;;
    put_fs (extractall zip_file tmp_input fs) ;;;
    fs' <- get_fs ;;
    let image_names := listdir tmp_input fs' in
    let image_file :=
      map (fun n => PyPath (Py.path_join tmp_input n)) image_names in
    ret (image_names, image_file)
  else
    ret ([original_filename data], [PyPath (filename data)]).

(** [mount_nextcloud(frompath, topath)]: runs [rclone copy frompath topath];
    its output is dropped by the callers. *)
Definition mount_nextcloud (frompath topath : string) : M unit :=
  emit (EvRclone frompath topath).

(** [model_PLD = preprocessing.warm(model_name_PLD)] and the same for PLQ,
    on the module-level names *)
Definition load_models : M unit :=
  emit (EvWarm model_name_PLD) ;;;
  (fun s => (Ok tt,
             mkState (st_fs s) (Some (preprocessing_warm model_name_PLD))
                     (model_PLQ s), [])) ;;;
  emit (EvWarm model_name_PLQ) ;;;
  (fun s => (Ok tt,
             mkState (st_fs s) (model_PLD s)
                     (Some (preprocessing_warm model_name_PLQ)), [])).

(** [warm()] *)
Definition warm : M unit := load_models.

(** Reading the module-level names. *)
Definition read_model_PLD : M model :=
  fun s => match model_PLD s with
           | Some m => (Ok m, s, [])
           | None => (Raise NameError, s, [])
           end.

Definition read_model_PLQ : M model :=
  fun s => match model_PLQ s with
           | Some m => (Ok m, s, [])
           | None => (Raise NameError, s, [])
           end.

(** [get_arr_from_bin(image_file)]: [io.BytesIO] wants bytes, a [str] is a
    TypeError. *)
Definition get_arr_from_bin (image_file : pyfile) : M image :=
  match image_file with
  | PyBytes b =>
      image_or <- decode_bytes b ;;
      ret (astype_uint8 image_or)
  | PyPath _ => raise TypeError
  end.

(** Lines 188-192 of [predict]: the array of one image. *)
Definition load_image (data : UploadedFile) (file : pyfile) : M image :=
  if content_type data =? "application/octet-stream" then
    get_arr_from_bin file
  else
    Image_open file.

(** The name both [return_plot] and [save_plot_nextcloud] save under:
    [f'{output_path}_{type}.jpg']. *)
Definition plot_file (output_path type : string) : string :=
  output_path ++ "_" ++ type ++ ".jpg".

(** [save_plot_nextcloud(results=, type=, output_path=, to_path=)] *)
Definition save_plot_nextcloud (results : pld_result + plq_result)
    (type output_path to_path : string) : M unit :=
  let fig := ResultPlot results type in
  savefig fig (plot_file output_path type) ;;;
  mount_nextcloud (plot_file output_path type) to_path.

(** [return_plot(results=, type=, output_path=)] *)
Definition return_plot (results : pld_result + plq_result)
    (type output_path : string) : M unit :=
  let fig := ResultPlot results type in
  savefig fig (plot_file output_path type).

(** [classification.PLD_result(image, image_names, model_PLD)] *)
Definition run_PLD (img : image) (image_names : list string)
  : M pld_result :=
  m <- read_model_PLD ;;
  emit (EvPLD img image_names m) ;;;
  ret (PLD_result img image_names m).

(** [classification.PLQ_result(c_matrix, image, image_names, model_PLQ)] *)
Definition run_PLQ (cm : cmatrix) (img : image) (image_names : list string)
  : M plq_result :=
  m <- read_model_PLQ ;;
  emit (EvPLQ cm img image_names m) ;;;
  ret (PLQ_result cm img image_names m).

(** [with pd.ExcelWriter(excel_path) as writer: ...], lines 203-205 *)
Definition write_workbook (excel_path : string) (df_PLD df_PLQ : dframe)
  : M unit :=
  let sheets :=
    [("Litter Detection", df_PLD); ("Litter Quantification", df_PLQ)] in
  fs <- get_fs ;;
  put_fs (fs_write excel_path (Xlsx sheets) fs) ;;;
  emit (EvExcel excel_path (map fst sheets)).

(** The body of the loop of [predict], lines 185-246, for one pair of
    [zip(image_names, image_files)].  [Some h]: the body executed
    [return h]; [None]: it ran to its end. *)
Definition process_image (kw : kwargs) (tmp_dir to_path : string)
    (image_names : list string) (name : string) (file : pyfile)
  : M (option handle) :=
  let name := Py.basename name in
  let output_path := Py.path_join tmp_dir (Py.drop_last4 name) in
  let excel_path := output_path ++ "_litter_items.xlsx" in
  emit (EvLoad file) ;;;
  img <- load_image (files kw) file ;;
  results_PLD <- run_PLD img image_names ;;
  emit (EvPLDdf results_PLD) ;;;
  let df_PLD := PLD_df results_PLD "PLD" in
  if (PLD_plot kw && PLQ_plot kw)%bool then
    return_plot (inl results_PLD) "PLD" output_path ;;;
    results_PLQ <- run_PLQ (c_matrix results_PLD) img image_names ;;
    emit (EvPLQdf results_PLQ) ;;;
    let df_PLQ := PLQ_df results_PLQ "PLQ" in
    return_plot (inr results_PLQ) "PLQ" output_path ;;;
    write_workbook excel_path df_PLD df_PLQ ;;;
    if output_type kw =? "Download" then
      fs <- get_fs ;;
      put_fs (make_archive tmp_dir tmp_dir fs) ;;;
      emit (EvArchive (tmp_dir ++ ".zip")) ;;;
      let zip_path := tmp_dir ++ ".zip" in
      h <- open_rb zip_path ;;
      ret (Some h)
    else if output_type kw =? "nextcloud" then
      save_plot_nextcloud (inl results_PLD) "PLD" output_path to_path ;;;
      save_plot_nextcloud (inr results_PLQ) "PLQ" output_path to_path ;;;
      ret None
    else
      emit (EvPrint "no output type selected") ;;;
      ret None
  else if PLD_plot kw then
    return_plot (inl results_PLD) "PLD" output_path ;;;
    let plot_path := output_path ++ "_PLD.jpg" in
    if output_type kw =? "Download" then
      h <- open_rb plot_path ;;
      ret (Some h)
    else if output_type kw =? "nextcloud" then
      save_plot_nextcloud (inl results_PLD) "PLD" output_path to_path ;;;
      ret None
    else
      emit (EvPrint "no output type selected") ;;;
      ret None
  else if PLQ_plot kw then
    results_PLQ <- run_PLQ (c_matrix results_PLD) img image_names ;;
    return_plot (inr results_PLQ) "PLQ" output_path ;;;
    let plot_path := output_path ++ "_PLQ.jpg" in
    if output_type kw =? "Download" then
      h <- open_rb plot_path ;;
      ret (Some h)
    else if output_type kw =? "nextcloud" then
      save_plot_nextcloud (inr results_PLQ) "PLQ" output_path to_path ;;;
      ret None
    else
      emit (EvPrint "no output type selected") ;;;
      ret None
  else
    ret None.

(** [for name, file in zip(image_names, image_files): ...] and the
    [return None] at the end of the function *)
Fixpoint predict_loop (kw : kwargs) (tmp_dir to_path : string)
    (image_names : list string) (items : list (string * pyfile))
  : M (option handle) :=
  match items with
  | [] => ret None
  | (name, file) :: rest =>
      r <- process_image kw tmp_dir to_path image_names name file ;;
      match r with
      | Some h => ret (Some h)
      | None => predict_loop kw tmp_dir to_path image_names rest
      end
  end.

(** Lines 169-181 of [predict]: the models, the inputs and the scratch
    directory. *)
Definition predict_setup (kw : kwargs)
  : M (string * (list string * list pyfile)) :=
  load_models ;;;
  let data := files kw in
  inp <- get_input_data data ;;
  let image_names := fst inp in
  image_files <-
    (if face_detection kw then
       fs <- get_fs ;;
       let out := anonymize_images (snd inp) image_names fs in
       put_fs (snd out) ;;;
       emit (EvAnonymize image_names) ;;;
       ret (fst out)
     else ret (snd inp)) ;;
  tmp_dir <- mkdtemp ;;
  ret (tmp_dir, (image_names, image_files)).

Definition to_path : string := "rshare:iMagine_UC1/results".

(** [predict], called with the keyword arguments [kw] *)
Definition predict (kw : kwargs) : M (option handle) :=
  su <- predict_setup kw ;;
  let tmp_dir := fst su in
  let image_names := fst (snd su) in
  let image_files := snd (snd su) in
  predict_loop kw tmp_dir to_path image_names
    (combine image_names image_files).

End Service.

(** ** Properties of runs, as read off the events *)

Section Traces.

Context {C : Collaborators} {F : FaceDetection}.

(** The files the loop started to load, in order. *)
Fixpoint loaded_files (tr : list event) : list pyfile :=
  match tr with
  | [] => []
  | EvLoad f :: tr' => f :: loaded_files tr'
  | _ :: tr' => loaded_files tr'
  end.

Definition is_PLD (e : event) : bool :=
  match e with EvPLD _ _ _ => true | _ => false end.

Definition is_PLQ (e : event) : bool :=
  match e with EvPLQ _ _ _ _ => true | _ => false end.

Definition is_workbook (e : event) : bool :=
  match e with EvExcel _ _ => true | _ => false end.


(** Something is handed to the caller or to the remote storage. *)
Definition is_delivery (e : event) : bool :=
  match e with
  | EvArchive _ | EvOpen _ | EvRclone _ _ => true
  | _ => false
  end.


(** A file is written, opened or uploaded. *)
Definition is_artifact (e : event) : bool :=
  match e with
  | EvSavefig _ | EvExcel _ _ => true
  | _ => is_delivery e
  end.

Definition count (f : event -> bool) (tr : list event) : nat :=
  List.length (filter f tr).

(** Every call of the quantification stage is given the image and the
    [c_matrix] of the detection call made before it since the last image was
    loaded.  [cur]: the image and matrix of that detection call. *)
Fixpoint quantification_follows_detection (cur : option (image * cmatrix))
    (tr : list event) : Prop :=
  match tr with
  | [] => True
  | EvLoad _ :: tr' => quantification_follows_detection None tr'
  | EvPLD img names m :: tr' =>
      quantification_follows_detection
        (Some (img, c_matrix (PLD_result img names m))) tr'
  | EvPLQ cm img _ _ :: tr' =>
      cur = Some (img, cm) /\ quantification_follows_detection cur tr'
  | _ :: tr' => quantification_follows_detection cur tr'
  end.


Definition two_sheets : list string :=
  ["Litter Detection"; "Litter Quantification"].



(** A workbook is written with the two sheets. *)
Definition workbook_has_two_sheets (e : event) : Prop :=
  match e with
  | EvExcel _ sheet_names => sheet_names = two_sheets
  | _ => True
  end.

(** The console message of the unmatched output type. *)
Definition is_no_output_message (e : event) : bool :=
  match e with
  | EvPrint msg => msg =? "no output type selected"
  | _ => false
  end.

(** The models the stages are called with are the ones [preprocessing.warm]
    gives for the two model files. *)
Definition uses_loaded_models (e : event) : Prop :=
  match e with
  | EvPLD _ _ m => m = preprocessing_warm model_name_PLD
  | EvPLQ _ _ _ m => m = preprocessing_warm model_name_PLQ
  | _ => True
  end.

(** The arrays of a list of files, when every one of them loads. *)
Fixpoint load_all (data : UploadedFile) (fl : list pyfile) (s : state)
  : option (list image) :=
  match fl with
  | [] => Some []
  | f :: fl' =>
      match outcome (load_image data f s), load_all data fl' s with
      | Ok img, Some imgs => Some (img :: imgs)
      | _, _ => None
      end
  end.

(** What the loop does for an image when no plot is requested. *)
Definition detection_only (names : list string) (fi : pyfile * image)
  : list event :=
  let m := preprocessing_warm model_name_PLD in
  [EvLoad (fst fi); EvPLD (snd fi) names m;
   EvPLDdf (PLD_result (snd fi) names m)].

(** The [output_path] and [excel_path] of an image, lines 185-187. *)
Definition output_path_of (tmp_dir name : string) : string :=
  Py.path_join tmp_dir (Py.drop_last4 (Py.basename name)).

Definition excel_path_of (tmp_dir name : string) : string :=
  output_path_of tmp_dir name ++ "_litter_items.xlsx".

(** The file whose handle download mode returns for an image. *)
Definition download_artifact (kw : kwargs) (tmp_dir name : string) : string :=
  if (PLD_plot kw && PLQ_plot kw)%bool then tmp_dir ++ ".zip"
  else if PLD_plot kw then output_path_of tmp_dir name ++ "_PLD.jpg"
  else output_path_of tmp_dir name ++ "_PLQ.jpg".

(** Every path is at most as long as [d]: the file system as a fresh
    directory [d] sees it. *)
Definition older_than (d : string) (fs : fsmap) : Prop :=
  forall p c, In (p, c) fs -> String.length p <= String.length d.

(** The shape of a scratch directory name that [os.path.join] relies on. *)
Definition plain_dir (d : string) : Prop :=
  (d =? "") = false /\ Py.endswith d "/" = false.

(** Every file of [fs1] is still there, unchanged, in [fs']. *)
Definition kept (fs1 fs' : fsmap) : Prop :=
  forall p c, fs_lookup p fs1 = Some c -> fs_lookup p fs' = Some c.

(** The module-level names are bound to what [preprocessing.warm] gives. *)
Definition models_loaded (s : state) : Prop :=
  model_PLD s = Some (preprocessing_warm model_name_PLD) /\
  model_PLQ s = Some (preprocessing_warm model_name_PLQ).

(** What lines 169-181 establish: the two models are bound to what
    [preprocessing.warm] gave, and the scratch directory is new. *)
Definition setup_post (tmp_dir : string) (s1 : state) : Prop :=
  model_PLD s1 = Some (preprocessing_warm model_name_PLD) /\
  model_PLQ s1 = Some (preprocessing_warm model_name_PLQ) /\
  plain_dir tmp_dir /\ older_than tmp_dir (st_fs s1).

Definition setup_events (t0 : list event) : Prop :=
  t0 = [EvWarm model_name_PLD; EvWarm model_name_PLQ] \/
  exists names,
    t0 = [EvWarm model_name_PLD; EvWarm model_name_PLQ; EvAnonymize names].

(** How many of the names end with [suf]. *)
Definition count_suffix (suf : string) (names : list string) : nat :=
  List.length (filter (fun n => Py.endswith n suf) names).

(** The claim that a workbook is written whenever both stages run, read on
    the events of a call. *)
Definition workbook_whenever_both_stages (kw : kwargs) (s : state) : Prop :=
  let tr := events (predict kw s) in
  0 < count is_PLD tr -> 0 < count is_PLQ tr -> 0 < count is_workbook tr.

(** *** Further readings of the events and of the files *)

Definition is_upload (e : event) : bool :=
  match e with EvRclone _ _ => true | _ => false end.

Definition is_savefig (e : event) : bool :=
  match e with EvSavefig _ => true | _ => false end.

(** [f] is the file of a PLD or PLQ plot. *)
Definition saved_plot (f : string) : Prop :=
  exists o type, (type = "PLD" \/ type = "PLQ") /\ f = plot_file o type.

(** Every upload is the [rclone copy] of a plot file to the fixed remote
    path, and is made right after that very file was saved.  [prev]: the
    file saved by the event just before. *)
Fixpoint uploads_follow_savefig (prev : option string) (tr : list event)
  : Prop :=
  match tr with
  | [] => True
  | EvSavefig p :: tr' => uploads_follow_savefig (Some p) tr'
  | EvRclone f t :: tr' =>
      prev = Some f /\ t = to_path /\ saved_plot f /\
      uploads_follow_savefig None tr'
  | _ :: tr' => uploads_follow_savefig None tr'
  end.

Definition is_PLQdf (e : event) : bool :=
  match e with EvPLQdf _ => true | _ => false end.

Definition is_archive (e : event) : bool :=
  match e with EvArchive _ => true | _ => false end.

(** The claim that an output type that is neither 'Download' nor
    'nextcloud' gives no artifact and no error, read on the outcome of a
    call. *)
Definition no_artifact_and_no_error (kw : kwargs) (s : state) : Prop :=
  output_type kw <> "Download" -> output_type kw <> "nextcloud" ->
  (PLD_plot kw || PLQ_plot kw)%bool = true ->
  outcome (predict kw s) = Ok None.

(** The claim that a call without plots returns None, read on the outcome
    of a call. *)
Definition no_plot_returns_none (kw : kwargs) (s : state) : Prop :=
  PLD_plot kw = false -> PLQ_plot kw = false ->
  outcome (predict kw s) = Ok None.

(** The names are pairwise different. *)
Fixpoint distinct (l : list string) : bool :=
  match l with
  | [] => true
  | x :: l' => (negb (existsb (String.eqb x) l') && distinct l')%bool
  end.

(** The name of an archive entry that lies directly in the root of the
    archive. *)
Definition flat_name (n : string) : bool :=
  (negb (Py.has_slash n) &&
   negb (existsb (String.eqb n) [""; "."; ".."]))%bool.

(** An archive of files lying side by side in its root. *)
Definition flat_archive (members : list (string * content)) : bool :=
  (forallb flat_name (map fst members) && distinct (map fst members))%bool.

(** Where [extractall] puts the entry [e] of an archive. *)
Definition extracted (tmp : string) (e : string * content)
  : string * content :=
  (tmp ++ "/" ++ fst e, snd e).

End Traces.

(** ** The plot name the specification gives

    [<basename of F without its extension>_<PLD|PLQ>.jpg], the extension
    being the one [os.path.splitext] finds: what follows the last dot,
    unless only dots come before it. *)

Module SpecName.

Definition dot : ascii := "."%char.

Fixpoint rfind_dot (s : string) : option nat :=
  match s with
  | EmptyString => None
  | String c s' =>
      match rfind_dot s' with
      | Some i => Some (S i)
      | None => if Ascii.eqb c dot then Some 0 else None
      end
  end.

Fixpoint all_dots (s : string) : bool :=
  match s with
  | EmptyString => true
  | String c s' => (Ascii.eqb c dot && all_dots s')%bool
  end.

Definition without_extension (name : string) : string :=
  match rfind_dot name with
  | Some i =>
      if all_dots (substring 0 i name) then name else substring 0 i name
  | None => name
  end.

Definition plot_name (F type : string) : string :=
  without_extension (Py.basename F) ++ "_" ++ type ++ ".jpg".

End SpecName.

(** ** A concrete instance

    Files, arrays and results are strings that spell out how they were
    obtained; a file decodes when its bytes start with "img"; the file
    system lists the names of a directory in the order of their creation. *)

Module Demo.

Definition collab : Collaborators := {|
  raw := string; image := string; model := string; cmatrix := string;
  pld_result := string; plq_result := string; dframe := string;
  figure := string;
  decode := fun b => if String.prefix "img" b then Some b else None;
  astype_uint8 := fun i => i;
  preprocessing_warm := fun n => "model:" ++ n;
  PLD_result := fun i _ _ => "PLD(" ++ i ++ ")";
  c_matrix := fun r => "cm:" ++ r;
  PLQ_result := fun cm _ _ _ => "PLQ(" ++ cm ++ ")";
  PLD_df := fun r _ => "df:" ++ r;
  PLQ_df := fun r _ => "df:" ++ r;
  ResultPlot := fun r _ =>
    match r with inl a => "fig:" ++ a | inr b => "fig:" ++ b end;
  savefig_bytes := fun f => "img:" ++ f;
  bytes_as_path := fun b => if Py.has_nul b then None else Some b;
  listdir_order := fun l => l;
  listdir_order_perm := fun l => Permutation_refl l
|}.

(** An anonymizer that leaves the images as they are. *)
Definition faces : @FaceDetection collab := {|
  anonymize_images := fun fl _ fs => (fl, fs)
|}.

Definition file_of (bytes : string) : @content collab := @Raw collab bytes.

Definition fs0 : @fsmap collab :=
  [("/up/a", file_of "img1");
   ("/up/z", Zip [("a.jpg", file_of "img1"); ("b.jpeg", file_of "img2")])].

Definition s0 : @state collab := mkState fs0 None None.

Definition single : UploadedFile := mkUpload "image/jpeg" "/up/a" "beach.jpg".
Definition single_jpeg : UploadedFile :=
  mkUpload "image/jpeg" "/up/a" "beach.jpeg".
Definition archive : UploadedFile :=
  mkUpload "application/zip" "/up/z" "images.zip".

Definition run (kw : kwargs)
  : result (option (@handle collab)) * @state collab * list (@event collab) :=
  @predict collab faces kw s0.

Definition setup (kw : kwargs) :=
  @predict_setup collab faces kw s0.

(** Requests. *)
Definition download_both : kwargs :=
  mkKwargs single false true true "Download".
Definition download_jpeg : kwargs :=
  mkKwargs single_jpeg false true false "Download".
Definition zip_download : kwargs :=
  mkKwargs archive false true false "Download".
Definition zip_quantify : kwargs :=
  mkKwargs archive false false true "nextcloud".
Definition zip_email : kwargs :=
  mkKwargs archive false true true "email".
Definition zip_no_plot : kwargs :=
  mkKwargs archive false false false "Download".
Definition octet_download : kwargs :=
  mkKwargs (mkUpload "application/octet-stream" "/up/a" "beach.jpg")
    false true true "Download".
Definition zip_nextcloud : kwargs :=
  mkKwargs archive false true true "nextcloud".
Definition zip_download_quantify : kwargs :=
  mkKwargs archive false false true "Download".
Definition missing_zip : kwargs :=
  mkKwargs (mkUpload "application/zip" "/up/a" "images.zip")
    false true true "Download".
Definition octet_email : kwargs :=
  mkKwargs (mkUpload "application/octet-stream" "/up/a" "beach.jpg")
    false true false "email".
Definition octet_no_plot : kwargs :=
  mkKwargs (mkUpload "application/octet-stream" "/up/a" "beach.jpg")
    false false false "Download".

(** An upload declared an image whose stored file is the archive. *)
Definition no_image_email : kwargs :=
  mkKwargs (mkUpload "image/jpeg" "/up/z" "z.jpg") false true false "email".
Definition no_image_no_plot : kwargs :=
  mkKwargs (mkUpload "image/jpeg" "/up/z" "z.jpg")
    false false false "Download".

(** An archive without entries. *)
Definition s_empty : @state collab :=
  mkState [("/up/e", @Zip collab [])] None None.
Definition empty_zip : kwargs :=
  mkKwargs (mkUpload "application/zip" "/up/e" "none.zip")
    false true true "Download".

(** The scratch directory, the state and the events the set-up gives for
    the single upload and for the archive. *)
Definition tmp_single : string :=
  Eval vm_compute in
    match outcome (setup download_both) with
    | Ok su => fst su
    | Raise _ => ""
    end.
Definition s1_single : @state collab :=
  Eval vm_compute in final (setup download_both).
Definition tmp_archive : string :=
  Eval vm_compute in
    match outcome (setup zip_download) with
    | Ok su => fst su
    | Raise _ => ""
    end.
Definition s1_archive : @state collab :=
  Eval vm_compute in final (setup zip_download).
Definition t0 : list (@event collab) :=
  Eval vm_compute in events (setup zip_download).

End Demo.

(** * Proofs *)

(** ** Strings and paths *)

Section StringFacts.

Lemma string_length_app (a b : string) :
  String.length (a ++ b) = String.length a + String.length b.
Proof. induction a as [|c a IH]; simpl; [reflexivity | now rewrite IH]. Qed.

Lemma app_assoc_s (a b c : string) : (a ++ b) ++ c = a ++ (b ++ c).
Proof. induction a as [|x a IH]; simpl; [reflexivity | now rewrite IH]. Qed.

Lemma substring_skip (a b : string) (k m : nat) :
  substring (String.length a + k) m (a ++ b) = substring k m b.
Proof. induction a as [|c a IH]; simpl; [reflexivity | exact IH]. Qed.

Lemma substring_take (a b : string) :
  substring 0 (String.length a) (a ++ b) = a.
Proof.
  induction a as [|c a IH]; simpl.
  - destruct b; reflexivity.
  - now rewrite IH.
Qed.

(** The suffix test looks at the last [length suf] characters only. *)
Lemma endswith_app (a b suf : string) :
  String.length suf <= String.length b ->
  Py.endswith (a ++ b) suf = Py.endswith b suf.
Proof.
  intros Hle. unfold Py.endswith. rewrite string_length_app.
  replace (String.length a + String.length b - String.length suf)
    with (String.length a + (String.length b - String.length suf)) by lia.
  now rewrite substring_skip.
Qed.

Lemma drop_last4_app (stem ext : string) :
  String.length ext = 4 -> Py.drop_last4 (stem ++ ext) = stem.
Proof.
  intros H. unfold Py.drop_last4. rewrite string_length_app, H.
  replace (String.length stem + 4 - 4) with (String.length stem) by lia.
  apply substring_take.
Qed.

Lemma strip_prefix_app (a b : string) : Py.strip_prefix a (a ++ b) = Some b.
Proof.
  induction a as [|c a IH]; simpl; [reflexivity|].
  now rewrite Ascii.eqb_refl.
Qed.

Lemma strip_prefix_length (a s r : string) :
  Py.strip_prefix a s = Some r -> String.length s = String.length a + String.length r.
Proof.
  revert s; induction a as [|c a IH]; intros s H; simpl in *.
  - now inversion H.
  - destruct s as [|d s]; [discriminate|].
    destruct (Ascii.eqb c d); [|discriminate].
    simpl. now rewrite (IH _ H).
Qed.

Lemma app_eqb_cancel (a b c : string) : (a ++ b =? a ++ c) = (b =? c).
Proof.
  induction a as [|x a IH]; simpl; [reflexivity|].
  now rewrite Ascii.eqb_refl.
Qed.

Lemma eqb_length_neq (a b : string) :
  String.length a <> String.length b -> (a =? b) = false.
Proof. intros H. apply String.eqb_neq. intros ->. now apply H. Qed.

Lemma has_slash_app (a b : string) :
  Py.has_slash (a ++ b) = (Py.has_slash a || Py.has_slash b)%bool.
Proof.
  induction a as [|c a IH]; simpl; [reflexivity|].
  now rewrite IH, orb_assoc.
Qed.

(** A component read after the last '/' has no '/'. *)
Lemma after_last_slash_no_slash (p cur : string) :
  Py.has_slash cur = false -> Py.has_slash (Py.after_last_slash cur p) = false.
Proof.
  revert cur; induction p as [|c p IH]; intros cur H; simpl; [exact H|].
  destruct (Ascii.eqb c Py.slash) eqn:E.
  - now apply IH.
  - apply IH. rewrite has_slash_app, H. simpl. now rewrite E.
Qed.

Lemma basename_no_slash (p : string) : Py.has_slash (Py.basename p) = false.
Proof. now apply after_last_slash_no_slash. Qed.

Lemma substring_no_slash (s : string) (n m : nat) :
  Py.has_slash s = false -> Py.has_slash (substring n m s) = false.
Proof.
  revert n m; induction s as [|c s IH]; intros n m H.
  - destruct n, m; reflexivity.
  - simpl in H. apply orb_false_iff in H as [Hc Hs].
    destruct n as [|n]; simpl.
    + destruct m as [|m]; [reflexivity|]. simpl. now rewrite Hc, IH.
    + now apply IH.
Qed.

Lemma stem_no_slash (name : string) :
  Py.has_slash (Py.drop_last4 (Py.basename name)) = false.
Proof. apply substring_no_slash, basename_no_slash. Qed.

Lemma no_slash_starts (s : string) :
  Py.has_slash s = false -> Py.starts_with_slash s = false.
Proof.
  destruct s as [|c s]; simpl; [reflexivity|].
  intros H. now apply orb_false_iff in H as [-> _].
Qed.

Lemma repeat_char_length c n : String.length (Py.repeat_char c n) = n.
Proof. induction n; simpl; congruence. Qed.

Lemma endswith_repeat_x n :
  Py.endswith (Py.repeat_char "x"%char (S n)) "/" = false.
Proof.
  induction n as [|n IH]; [reflexivity|].
  change (Py.repeat_char "x"%char (S (S n)))
    with ("x" ++ Py.repeat_char "x"%char (S n)).
  rewrite endswith_app; [exact IH|]. simpl. lia.
Qed.

End StringFacts.

(** ** The file system *)

Section FileSystem.

Context {C : Collaborators}.

Lemma fs_lookup_write_eq p c (fs : fsmap) :
  fs_lookup p (fs_write p c fs) = Some c.
Proof.
  induction fs as [|[q d] fs IH]; simpl.
  - now rewrite String.eqb_refl.
  - destruct (q =? p) eqn:E; simpl.
    + now rewrite String.eqb_refl.
    + now rewrite E.
Qed.

Lemma fs_lookup_write_neq p q c (fs : fsmap) :
  (q =? p) = false -> fs_lookup p (fs_write q c fs) = fs_lookup p fs.
Proof.
  intros Hne. induction fs as [|[r d] fs IH]; simpl.
  - now rewrite Hne.
  - destruct (r =? q) eqn:E; simpl.
    + apply String.eqb_eq in E. subst r. now rewrite Hne.
    + destruct (r =? p); [reflexivity | exact IH].
Qed.

Lemma fs_lookup_In p c (fs : fsmap) :
  fs_lookup p fs = Some c -> In (p, c) fs.
Proof.
  induction fs as [|[q d] fs IH]; simpl; [discriminate|].
  destruct (String.eqb_spec q p) as [->|_].
  - intros [= ->]. now left.
  - intros H. right. now apply IH.
Qed.

Lemma fs_lookup_app p (fs l : fsmap) :
  fs_lookup p (fs ++ l)%list =
  match fs_lookup p fs with Some c => Some c | None => fs_lookup p l end.
Proof.
  induction fs as [|[q d] fs IH]; simpl; [reflexivity|].
  destruct (q =? p); [reflexivity | exact IH].
Qed.

(** Writing a file that does not exist appends it. *)
Lemma fs_write_new p c (fs : fsmap) :
  fs_lookup p fs = None -> fs_write p c fs = (fs ++ [(p, c)])%list.
Proof.
  induction fs as [|[q d] fs IH]; simpl; [reflexivity|].
  destruct (q =? p); [discriminate|].
  intros H. now rewrite IH.
Qed.

Lemma files_under_app d (fs l : fsmap) :
  files_under d (fs ++ l)%list = (files_under d fs ++ files_under d l)%list.
Proof.
  induction fs as [|[q c] fs IH]; simpl; [reflexivity|].
  destruct (Py.strip_prefix (d ++ "/") q); simpl; now rewrite IH.
Qed.

Lemma files_under_fresh d (fs : fsmap) :
  older_than d fs -> files_under d fs = [].
Proof.
  induction fs as [|[q c] fs IH]; intros Hold; simpl; [reflexivity|].
  destruct (Py.strip_prefix (d ++ "/") q) as [r|] eqn:E.
  - apply strip_prefix_length in E. rewrite string_length_app in E. simpl in E.
    specialize (Hold q c (or_introl eq_refl)). lia.
  - apply IH. intros p c' Hin. apply (Hold p c'). now right.
Qed.

Lemma fs_lookup_fresh d p (fs : fsmap) :
  older_than d fs -> String.length d < String.length p ->
  fs_lookup p fs = None.
Proof.
  intros Hold Hlen. destruct (fs_lookup p fs) as [c|] eqn:E; [|reflexivity].
  apply fs_lookup_In, Hold in E. lia.
Qed.

Lemma max_path_length_bound p c (fs : fsmap) :
  In (p, c) fs -> String.length p <= max_path_length fs.
Proof.
  induction fs as [|[q d] fs IH]; simpl; [contradiction|].
  intros [[= -> ->]|Hin]; [lia|]. specialize (IH Hin). lia.
Qed.

Lemma In_fs_write p c q d (fs : fsmap) :
  In (p, c) (fs_write q d fs) -> (p, c) = (q, d) \/ In (p, c) fs.
Proof.
  induction fs as [|[r e] fs IH]; simpl.
  - intros [H|[]]. now left.
  - destruct (r =? q); simpl.
    + intros [H|H]; [now left | right; now right].
    + intros [H|H]; [right; now left|].
      destruct (IH H) as [H'|H']; [now left | right; now right].
Qed.

Lemma mkdtemp_name_length (fs : fsmap) :
  String.length (mkdtemp_name fs) = 9 + max_path_length fs.
Proof.
  unfold mkdtemp_name. rewrite string_length_app, repeat_char_length. reflexivity.
Qed.

(** [mkdtemp] gives a directory that nothing lives in. *)
Lemma mkdtemp_fresh (fs : fsmap) :
  older_than (mkdtemp_name fs) (fs_write (mkdtemp_name fs) Dir fs).
Proof.
  intros p c Hin. apply In_fs_write in Hin as [[= -> _]|Hin]; [lia|].
  apply max_path_length_bound in Hin. rewrite mkdtemp_name_length. lia.
Qed.

Lemma mkdtemp_plain (fs : fsmap) : plain_dir (mkdtemp_name fs).
Proof.
  split; [reflexivity|].
  unfold mkdtemp_name. rewrite endswith_app.
  - apply endswith_repeat_x.
  - simpl. lia.
Qed.

Lemma path_join_plain d stem :
  plain_dir d -> Py.has_slash stem = false ->
  Py.path_join d stem = d ++ "/" ++ stem.
Proof.
  intros [Hne Hend] Hs. unfold Py.path_join.
  now rewrite (no_slash_starts _ Hs), Hne, Hend.
Qed.

End FileSystem.

(** ** Runs of the service *)

Section Runs.

Context {C : Collaborators} {F : FaceDetection}.

Ltac unfold_api :=
  unfold process_image, return_plot, save_plot_nextcloud, mount_nextcloud,
    write_workbook, run_PLD, run_PLQ, read_model_PLD, read_model_PLQ,
    open_rb, read_file, savefig, bind, emit, ret, raise, get_fs, put_fs.

Lemma open_image_file_pure p s r s' t :
  open_image_file p s = (r, s', t) -> s' = s /\ t = [].
Proof.
  unfold open_image_file, decode_bytes, read_file, bind, ret, raise, get_fs.
  cbn.
  destruct (fs_lookup p (st_fs s)) as [[b|m|sh|]|]; cbn;
    try (intros [= <- <- <-]; now split).
  destruct (decode b); cbn; intros [= <- <- <-]; now split.
Qed.

(** Loading an image reads the file system and nothing else. *)
Lemma load_image_pure data f s r s' t :
  load_image data f s = (r, s', t) -> s' = s /\ t = [].
Proof.
  unfold load_image, get_arr_from_bin, Image_open.
  destruct (content_type data =? "application/octet-stream").
  - unfold decode_bytes, bind, ret, raise.
    destruct f as [p|b]; cbn.
    + intros [= <- <- <-]. now split.
    + destruct (decode b); cbn; intros [= <- <- <-]; now split.
  - destruct f as [p|b]; [apply open_image_file_pure|].
    destruct (bytes_as_path b) as [p|]; [apply open_image_file_pure|].
    unfold raise. intros [= <- <- <-]. now split.
Qed.

Lemma load_image_run data f s :
  load_image data f s = (outcome (load_image data f s), s, []).
Proof.
  destruct (load_image data f s) as [[r s'] t] eqn:E.
  destruct (load_image_pure _ _ _ _ _ _ E) as [-> ->]. reflexivity.
Qed.

Lemma open_image_file_stable p s s' img :
  outcome (open_image_file p s) = Ok img ->
  (forall q c, fs_lookup q (st_fs s) = Some c ->
               fs_lookup q (st_fs s') = Some c) ->
  outcome (open_image_file p s') = Ok img.
Proof.
  unfold open_image_file, decode_bytes, read_file, bind, ret, raise, get_fs,
    outcome.
  intros H Hkeep. cbn in *.
  destruct (fs_lookup p (st_fs s)) as [c|] eqn:E; cbn in H; [|discriminate].
  rewrite (Hkeep _ _ E).
  destruct c as [b|m|sh|]; cbn in *; try discriminate.
  destruct (decode b); cbn in *; [exact H | discriminate].
Qed.

(** An image that loads still loads when the files it can see are kept. *)
Lemma load_image_stable data f s s' img :
  outcome (load_image data f s) = Ok img ->
  (forall p c, fs_lookup p (st_fs s) = Some c ->
               fs_lookup p (st_fs s') = Some c) ->
  outcome (load_image data f s') = Ok img.
Proof.
  unfold load_image, get_arr_from_bin, Image_open.
  intros H Hkeep.
  destruct (content_type data =? "application/octet-stream").
  - unfold decode_bytes, bind, ret, raise, outcome in *.
    destruct f as [p|b]; cbn in *; [discriminate|].
    destruct (decode b); cbn in *; [exact H | discriminate].
  - destruct f as [p|b]; [now apply (open_image_file_stable p s)|].
    destruct (bytes_as_path b) as [p|];
      [now apply (open_image_file_stable p s) | discriminate].
Qed.

(** *** The set-up *)

Lemma predict_setup_spec kw s :
  setup_events (events (predict_setup kw s)) /\
  match outcome (predict_setup kw s) with
  | Ok su => setup_post (fst su) (final (predict_setup kw s))
  | Raise _ => True
  end.
Proof.
  unfold predict_setup, load_models, get_input_data, mkdtemp, ZipFile,
    bind, emit, ret, raise, get_fs, put_fs, setup_events, setup_post,
    outcome, final, events.
  cbn.
  destruct (content_type (files kw) =? "application/zip"); cbn.
  - destruct (fs_lookup (filename (files kw)) _) as [[b|m|sh|]|]; cbn;
      try (split; [now left | exact I]).
    destruct (face_detection kw); cbn.
    + split; [right; eexists; reflexivity|].
      repeat split; try apply mkdtemp_plain; apply mkdtemp_fresh.
    + split; [now left|].
      repeat split; try apply mkdtemp_plain; apply mkdtemp_fresh.
  - destruct (face_detection kw); cbn.
    + split; [right; eexists; reflexivity|].
      repeat split; try apply mkdtemp_plain; apply mkdtemp_fresh.
    + split; [now left|].
      repeat split; try apply mkdtemp_plain; apply mkdtemp_fresh.
Qed.

(** *** The loop *)

Lemma predict_loop_cons kw tmp tp names name file rest s :
  predict_loop kw tmp tp names ((name, file) :: rest) s =
  match process_image kw tmp tp names name file s with
  | (Ok None, s1, t1) =>
      match predict_loop kw tmp tp names rest s1 with
      | (r, s2, t2) => (r, s2, (t1 ++ t2)%list)
      end
  | (Ok (Some h), s1, t1) => (Ok (Some h), s1, t1)
  | (Raise e, s1, t1) => (Raise e, s1, t1)
  end.
Proof.
  simpl. unfold bind at 1.
  destruct (process_image kw tmp tp names name file s) as [[[[h|]|e] s1] t1];
    try reflexivity.
  unfold ret. now rewrite app_nil_r.
Qed.

Lemma predict_run kw s :
  predict kw s =
  match predict_setup kw s with
  | (Ok su, s1, t0) =>
      match predict_loop kw (fst su) to_path (fst (snd su))
              (combine (fst (snd su)) (snd (snd su))) s1 with
      | (r, s2, t) => (r, s2, (t0 ++ t)%list)
      end
  | (Raise e, s1, t0) => (Raise e, s1, t0)
  end.
Proof. reflexivity. Qed.

(** A property of the events that every run of the body keeps holds of the
    events of the loop. *)
Lemma predict_loop_events (Inv : state -> Prop) (P : list event -> Prop)
    kw tmp tp names :
  P [] ->
  (forall name file s, Inv s ->
     Inv (final (process_image kw tmp tp names name file s)) /\
     forall R, P R ->
       P (events (process_image kw tmp tp names name file s) ++ R)%list) ->
  forall items s, Inv s ->
    P (events (predict_loop kw tmp tp names items s)).
Proof.
  intros Hnil Hbody items.
  induction items as [|[name file] rest IH]; intros s Hs; [exact Hnil|].
  rewrite predict_loop_cons.
  destruct (Hbody name file s Hs) as [Hinv Hev].
  destruct (process_image kw tmp tp names name file s)
    as [[[[h|]|e] s1] t1]; cbn in *.
  - rewrite <- (app_nil_r t1). now apply Hev.
  - specialize (IH s1 Hinv).
    destruct (predict_loop kw tmp tp names rest s1) as [[r s2] t2].
    cbn in *. now apply Hev.
  - rewrite <- (app_nil_r t1). now apply Hev.
Qed.

(** When no run of the body returns a handle, the loop returns none. *)
Lemma predict_loop_no_handle kw tmp tp names :
  (forall name file s h,
     outcome (process_image kw tmp tp names name file s) <> Ok (Some h)) ->
  forall items s h,
    outcome (predict_loop kw tmp tp names items s) <> Ok (Some h).
Proof.
  intros Hbody items.
  induction items as [|[name file] rest IH]; intros s h; [discriminate|].
  rewrite predict_loop_cons.
  pose proof (Hbody name file s) as Hb.
  destruct (process_image kw tmp tp names name file s)
    as [[[[h'|]|e] s1] t1]; cbn in *.
  - exfalso. now apply (Hb h').
  - specialize (IH s1 h).
    destruct (predict_loop kw tmp tp names rest s1) as [[r s2] t2].
    exact IH.
  - discriminate.
Qed.

(** *** The body of the loop *)

(** Splits a run of the loop body along the branches it can take. *)
Ltac body_cases kw s :=
  unfold_api; unfold outcome, final, events;
  match goal with
  | |- context [load_image ?d ?f s] =>
      let E := fresh "Eload" in
      let r := fresh "r" in
      let s' := fresh "s'" in
      let t := fresh "t" in
      destruct (load_image d f s) as [[r s'] t] eqn:E;
      destruct (load_image_pure _ _ _ _ _ _ E) as [-> ->];
      destruct r as [?img|?e]
  end; cbn;
  [ destruct (model_PLD s) as [?mD|] eqn:?EmD; cbn;
    [ destruct (PLD_plot kw) eqn:?Ep, (PLQ_plot kw) eqn:?Eq; cbn;
      try (destruct (model_PLQ s) as [?mQ|] eqn:?EmQ; cbn);
      try (destruct (output_type kw =? "Download") eqn:?Ed; cbn;
           [ unfold make_archive; rewrite ?fs_lookup_write_eq; cbn
           | destruct (output_type kw =? "nextcloud") eqn:?En; cbn ])
    | ]
  | ].

Lemma process_image_models kw tmp tp names name file s :
  model_PLD (final (process_image kw tmp tp names name file s)) = model_PLD s /\
  model_PLQ (final (process_image kw tmp tp names name file s)) = model_PLQ s.
Proof.
  body_cases kw s; auto.
Qed.

Lemma process_image_keeps_models kw tmp tp names name file s :
  models_loaded s ->
  models_loaded (final (process_image kw tmp tp names name file s)).
Proof.
  intros [HD HQ].
  destruct (process_image_models kw tmp tp names name file s) as [ED EQ].
  split; congruence.
Qed.

(** A property of the events that the set-up and every run of the body keep
    holds of the events of a call. *)
Lemma predict_events (P : list event -> Prop) kw s :
  P [] ->
  (forall t0 R, setup_events t0 -> P R -> P (t0 ++ R)%list) ->
  (forall tmp names name file s', models_loaded s' ->
     forall R, P R ->
       P (events (process_image kw tmp to_path names name file s') ++ R)%list) ->
  P (events (predict kw s)).
Proof.
  intros Hnil Hsetup Hbody. rewrite predict_run.
  destruct (predict_setup_spec kw s) as [Hev Hpost].
  destruct (predict_setup kw s) as [[[su|e] s1] t0]; cbn in *.
  - assert (HP : P (events (predict_loop kw (fst su) to_path (fst (snd su))
                      (combine (fst (snd su)) (snd (snd su))) s1))).
    { apply (predict_loop_events models_loaded P); auto.
      - intros name file s' Hs'. split.
        + now apply process_image_keeps_models.
        + now apply Hbody.
      - destruct Hpost as (HD & HQ & _). now split. }
    destruct (predict_loop _ _ _ _ _ s1) as [[r s2] t]. cbn in *.
    now apply Hsetup.
  - rewrite <- (app_nil_r t0). now apply Hsetup.
Qed.

(** Removes the branches that contradict what is known of the run. *)
Ltac tidy :=
  repeat match goal with
  | H : models_loaded _ |- _ => destruct H as [? ?]
  | E : load_image ?d ?f ?s = _, H : context [load_image ?d ?f ?s] |- _ =>
      rewrite E in H; cbn in H
  | H : ?a = ?a |- _ => clear H
  | H : Some _ = Some _ |- _ => injection H as H; try subst
  | H : Ok _ = Ok _ |- _ => injection H as H; try subst
  | H : _ = _ |- _ => discriminate H
  | H : ?x = _, H' : ?x = _ |- _ => rewrite H in H'
  end.

(** C2: in every call of predict, each call of the quantification stage
    comes after a call of the detection stage made on the same image array
    since that image was loaded, and is given the c_matrix of its result.
    When only the quantification plot is requested, the detection stage is
    still run: for the first enumerated image, once it loads, the events
    start with the load, the detection call and the quantification call on
    its matrix. *)
Theorem C2_quantification_follows_detection kw s :
  quantification_follows_detection None (events (predict kw s)) /\
  (forall tmp n1 ns f1 fl s1 t0 img,
     predict_setup kw s = (Ok (tmp, (n1 :: ns, f1 :: fl)), s1, t0) ->
     outcome (load_image (files kw) f1 s1) = Ok img ->
     PLD_plot kw = false -> PLQ_plot kw = true ->
     let mD := preprocessing_warm model_name_PLD in
     let mQ := preprocessing_warm model_name_PLQ in
     let res := PLD_result img (n1 :: ns) mD in
     exists rest,
       events (predict kw s) =
       (t0 ++ EvLoad f1 :: EvPLD img (n1 :: ns) mD :: EvPLDdf res
           :: EvPLQ (c_matrix res) img (n1 :: ns) mQ :: rest)%list).
Proof.
  split.
  - apply (predict_events
             (fun tr => forall cur, quantification_follows_detection cur tr)).
    + intros cur. exact I.
    + intros t0 R [->|[names ->]] HR cur; cbn; apply HR.
    + intros tmp names name file s' Hs' R HR cur.
      body_cases kw s'; tidy; cbn; repeat split; auto.
  - intros tmp n1 ns f1 fl s1 t0 img Hsetup Hload Hp Hq mD mQ res.
    subst mD mQ res.
    pose proof (predict_setup_spec kw s) as [_ Hpost].
    rewrite predict_run. rewrite Hsetup in *. cbn in Hpost.
    destruct Hpost as (HD & HQ & _).
    cbn [fst snd combine]. rewrite predict_loop_cons.
    assert (Hbody : exists rest,
      events (process_image kw tmp to_path (n1 :: ns) n1 f1 s1) =
      EvLoad f1
        :: EvPLD img (n1 :: ns) (preprocessing_warm model_name_PLD)
        :: EvPLDdf (PLD_result img (n1 :: ns)
                      (preprocessing_warm model_name_PLD))
        :: EvPLQ (c_matrix (PLD_result img (n1 :: ns)
                              (preprocessing_warm model_name_PLD)))
             img (n1 :: ns) (preprocessing_warm model_name_PLQ) :: rest).
    { unfold outcome in Hload.
      body_cases kw s1; cbn in Hload; tidy; eexists; reflexivity. }
    destruct Hbody as [rest Hrest].
    destruct (process_image kw tmp to_path (n1 :: ns) n1 f1 s1)
      as [[[[h|]|e] s2] t1]; cbn in Hrest; subst t1.
    + cbn. eexists; reflexivity.
    + destruct (predict_loop _ _ _ _ _ s2) as [[r s3] t2]. cbn.
      eexists; reflexivity.
    + cbn. eexists; reflexivity.
Qed.




(** C6, as amended: when both plots are requested, for each image the
    detection stage runs on, the quantification dataframe is built and one
    workbook is written, with the two sheets; otherwise no quantification
    dataframe is built and no workbook is written, and when only the
    quantification plot is requested both stages still run for the image.
    Once the first enumerated image loads, the detection stage runs at least
    once, so that these counts are not zero. *)
Theorem C6_workbook_only_when_both_plots kw s :
  let tr := events (predict kw s) in
  ((PLD_plot kw && PLQ_plot kw)%bool = true ->
   count is_workbook tr = count is_PLD tr /\
   count is_PLQdf tr = count is_PLD tr) /\
  ((PLD_plot kw && PLQ_plot kw)%bool = false ->
   count is_workbook tr = 0 /\ count is_PLQdf tr = 0) /\
  (PLD_plot kw = false -> PLQ_plot kw = true ->
   count is_PLQ tr = count is_PLD tr) /\
  Forall workbook_has_two_sheets tr /\
  (forall tmp n1 ns f1 fl s1 t0 img,
     predict_setup kw s = (Ok (tmp, (n1 :: ns, f1 :: fl)), s1, t0) ->
     outcome (load_image (files kw) f1 s1) = Ok img ->
     1 <= count is_PLD tr).
Proof.
  cbv zeta. unfold count.
  assert (Hcounts :
    ((PLD_plot kw && PLQ_plot kw)%bool = true ->
     List.length (filter is_workbook (events (predict kw s))) =
     List.length (filter is_PLD (events (predict kw s))) /\
     List.length (filter is_PLQdf (events (predict kw s))) =
     List.length (filter is_PLD (events (predict kw s)))) /\
    ((PLD_plot kw && PLQ_plot kw)%bool = false ->
     List.length (filter is_workbook (events (predict kw s))) = 0 /\
     List.length (filter is_PLQdf (events (predict kw s))) = 0) /\
    (PLD_plot kw = false -> PLQ_plot kw = true ->
     List.length (filter is_PLQ (events (predict kw s))) =
     List.length (filter is_PLD (events (predict kw s)))) /\
    Forall workbook_has_two_sheets (events (predict kw s))).
  { apply (predict_events
             (fun tr =>
                ((PLD_plot kw && PLQ_plot kw)%bool = true ->
                 List.length (filter is_workbook tr) =
                 List.length (filter is_PLD tr) /\
                 List.length (filter is_PLQdf tr) =
                 List.length (filter is_PLD tr)) /\
                ((PLD_plot kw && PLQ_plot kw)%bool = false ->
                 List.length (filter is_workbook tr) = 0 /\
                 List.length (filter is_PLQdf tr) = 0) /\
                (PLD_plot kw = false -> PLQ_plot kw = true ->
                 List.length (filter is_PLQ tr) =
                 List.length (filter is_PLD tr)) /\
                Forall workbook_has_two_sheets tr)).
    - repeat split; auto.
    - intros t0 R [->|[names ->]] HR; cbn;
        destruct HR as (H1 & H2 & H3 & H4); repeat split; auto;
        try (now apply H1); try (now apply H2);
        repeat (constructor; [exact I|]); exact H4.
    - intros tmp names name file s' Hs' R. body_cases kw s'; tidy;
        intros (H1 & H2 & H3 & H4); cbn in *;
        (split; [|split; [|split]]);
        try (intros; discriminate);
        try (intros HH; destruct (H1 HH); split; f_equal; auto; fail);
        try (intros HH; destruct (H2 HH); split; auto; fail);
        try (intros; f_equal; auto; fail);
        try (repeat (constructor; [first [exact I | reflexivity]|]);
             exact H4);
        auto. }
  destruct Hcounts as (H1 & H2 & H3 & H4).
  repeat (split; [assumption|]).
  intros tmp n1 ns f1 fl s1 t0 img Hsetup Hload.
  pose proof (predict_setup_spec kw s) as [_ Hpost].
  rewrite predict_run. rewrite Hsetup in *. cbn in Hpost.
  destruct Hpost as (HD & HQ & _).
  cbn [fst snd combine]. rewrite predict_loop_cons.
  assert (Hbody :
    1 <= List.length
           (filter is_PLD
              (events (process_image kw tmp to_path (n1 :: ns) n1 f1 s1)))).
  { unfold outcome in Hload.
    body_cases kw s1; cbn in Hload; tidy; cbn; lia. }
  destruct (process_image kw tmp to_path (n1 :: ns) n1 f1 s1)
    as [[[[h|]|e] s2] t1]; cbn in Hbody |- *.
  - rewrite filter_app, List.length_app. lia.
  - destruct (predict_loop _ _ _ _ _ s2) as [[r s3] t2]. cbn.
    rewrite !filter_app, !List.length_app. lia.
  - rewrite filter_app, List.length_app. lia.
Qed.

(** C9: every call of predict starts by loading the two models with
    preprocessing.warm, before any image is loaded; the stages are only
    ever called with the models these two loads give; and the call does not
    depend on what the module-level model names were bound to before, be it
    by warm() or by an earlier request. *)
Theorem C9_models_loaded_on_every_call kw s :
  (exists rest,
     events (predict kw s) =
     EvWarm model_name_PLD :: EvWarm model_name_PLQ :: rest) /\
  Forall uses_loaded_models (events (predict kw s)) /\
  (forall m1 m2, predict kw (mkState (st_fs s) m1 m2) = predict kw s) /\
  predict kw (final (warm s)) = predict kw s.
Proof.
  split; [|split; [|split]].
  - rewrite predict_run.
    destruct (predict_setup_spec kw s) as [Hev _].
    destruct (predict_setup kw s) as [[[su|e] s1] t0]; cbn in *.
    + destruct (predict_loop _ _ _ _ _ s1) as [[r s2] t]. cbn.
      destruct Hev as [->|[names ->]]; eexists; reflexivity.
    + destruct Hev as [->|[names ->]]; eexists; reflexivity.
  - apply (predict_events (Forall uses_loaded_models)).
    + constructor.
    + intros t0 R [->|[names ->]] HR; repeat (constructor; [exact I|]);
        exact HR.
    + intros tmp names name file s' Hs' R HR.
      body_cases kw s'; tidy; cbn;
        repeat (constructor; [first [exact I | reflexivity]|]); exact HR.
  - intros m1 m2. reflexivity.
  - reflexivity.
Qed.

(** *** No plot requested *)

Lemma load_all_cons data f fl s imgs :
  load_all data (f :: fl) s = Some imgs ->
  exists img rest,
    imgs = img :: rest /\ outcome (load_image data f s) = Ok img /\
    load_all data fl s = Some rest.
Proof.
  simpl. destruct (outcome (load_image data f s)) as [img|e]; [|discriminate].
  destruct (load_all data fl s) as [rest|]; [|discriminate].
  intros [= <-]. now exists img, rest.
Qed.

Lemma predict_loop_no_plots kw tmp tp names items :
  PLD_plot kw = false -> PLQ_plot kw = false ->
  forall s imgs,
    models_loaded s ->
    load_all (files kw) (map snd items) s = Some imgs ->
    predict_loop kw tmp tp names items s =
    (Ok None, s,
     flat_map (detection_only names) (combine (map snd items) imgs)).
Proof.
  intros Hp Hq.
  induction items as [|[name file] rest IH]; intros s imgs Hs Hall.
  - reflexivity.
  - apply load_all_cons in Hall as (img & imgs' & -> & Hload & Hall).
    rewrite predict_loop_cons.
    assert (Hbody : process_image kw tmp tp names name file s =
                    (Ok None, s, detection_only names (file, img))).
    { unfold outcome in Hload. unfold detection_only.
      body_cases kw s; cbn in Hload; tidy; reflexivity. }
    rewrite Hbody, (IH s imgs' Hs Hall). reflexivity.
Qed.

(** C10: when neither plot is requested, for every output type, predict
    never returns a handle, and neither writes, opens nor uploads a file,
    nor calls the quantification stage; and when the images enumerated by
    the set-up all load, it returns None, leaves the state as the set-up
    left it, and what it does is, for each enumerated image in turn, to
    load it, run the detection stage on it and build the detection
    dataframe. *)
Theorem C10_no_plot_requested kw s :
  PLD_plot kw = false -> PLQ_plot kw = false ->
  (forall h, outcome (predict kw s) <> Ok (Some h)) /\
  Forall (fun e => is_artifact e = false /\ is_PLQ e = false)
    (events (predict kw s)) /\
  (forall tmp names fl s1 t0 imgs,
     predict_setup kw s = (Ok (tmp, (names, fl)), s1, t0) ->
     load_all (files kw) (map snd (combine names fl)) s1 = Some imgs ->
     predict kw s =
     (Ok None, s1,
      (t0 ++ flat_map (detection_only names)
               (combine (map snd (combine names fl)) imgs))%list)).
Proof.
  intros Hp Hq. split; [|split].
  - intros h. rewrite predict_run.
    destruct (predict_setup kw s) as [[[su|e] s1] t0]; [|discriminate].
    pose proof (predict_loop_no_handle kw (fst su) to_path (fst (snd su)))
      as Hloop.
    specialize (Hloop
      (fun name file s' h' =>
         ltac:(body_cases kw s'; tidy; discriminate))
      (combine (fst (snd su)) (snd (snd su))) s1 h).
    destruct (predict_loop _ _ _ _ _ s1) as [[r s2] t]. exact Hloop.
  - apply (predict_events
             (Forall (fun e => is_artifact e = false /\ is_PLQ e = false))).
    + constructor.
    + intros t0 R [->|[names ->]] HR;
        repeat (constructor; [now split|]); exact HR.
    + intros tmp names name file s' Hs' R HR.
      body_cases kw s'; tidy; cbn;
        repeat (constructor; [now split|]); exact HR.
  - intros tmp names fl s1 t0 imgs Hsetup Hall.
    pose proof (predict_setup_spec kw s) as [_ Hpost].
    rewrite predict_run. rewrite Hsetup in *. cbn in Hpost.
    destruct Hpost as (HD & HQ & _).
    cbn [fst snd].
    rewrite (predict_loop_no_plots kw tmp to_path names _ Hp Hq s1 imgs);
      [reflexivity | now split | exact Hall].
Qed.

(** *** What the loop writes stays in the scratch directory *)

Lemma kept_write tmp (fs1 fs' : fsmap) q c :
  older_than tmp fs1 -> kept fs1 fs' ->
  String.length tmp < String.length q ->
  kept fs1 (fs_write q c fs').
Proof.
  intros Hold Hkept Hlen p d Hp.
  rewrite fs_lookup_write_neq; [now apply Hkept|].
  apply eqb_length_neq. apply fs_lookup_In, Hold in Hp. lia.
Qed.

Lemma output_path_plain tmp name :
  plain_dir tmp ->
  output_path_of tmp name =
  tmp ++ "/" ++ Py.drop_last4 (Py.basename name).
Proof.
  intros Hplain. apply path_join_plain; [exact Hplain | apply stem_no_slash].
Qed.

Lemma output_path_long tmp name suffix :
  plain_dir tmp ->
  String.length tmp <
  String.length (Py.path_join tmp (Py.drop_last4 (Py.basename name))
                 ++ suffix).
Proof.
  intros Hplain.
  change (Py.path_join tmp (Py.drop_last4 (Py.basename name)))
    with (output_path_of tmp name).
  rewrite (output_path_plain _ _ Hplain), !string_length_app. simpl. lia.
Qed.

Lemma zip_path_long tmp : String.length tmp < String.length (tmp ++ ".zip").
Proof. rewrite string_length_app. simpl. lia. Qed.

Lemma process_image_keeps kw tmp tp names name file s1 s :
  plain_dir tmp -> older_than tmp (st_fs s1) ->
  kept (st_fs s1) (st_fs s) ->
  kept (st_fs s1) (st_fs (final (process_image kw tmp tp names name file s))).
Proof.
  intros Hplain Hold Hkept.
  body_cases kw s; unfold plot_file;
    repeat (apply (kept_write tmp);
            [exact Hold | | first [apply output_path_long; exact Hplain
                                  | apply zip_path_long]]);
    exact Hkept.
Qed.

(** *** An output type that is neither 'Download' nor 'nextcloud' *)

Lemma predict_loop_fallthrough kw tmp tp names s1 items :
  (output_type kw =? "Download") = false ->
  (output_type kw =? "nextcloud") = false ->
  (PLD_plot kw || PLQ_plot kw)%bool = true ->
  plain_dir tmp -> older_than tmp (st_fs s1) ->
  forall s imgs,
    models_loaded s -> kept (st_fs s1) (st_fs s) ->
    load_all (files kw) (map snd items) s1 = Some imgs ->
    outcome (predict_loop kw tmp tp names items s) = Ok None /\
    count is_no_output_message (events (predict_loop kw tmp tp names items s))
    = List.length items.
Proof.
  intros Hd Hn Hflag Hplain Hold.
  induction items as [|[name file] rest IH]; intros s imgs Hs Hkept Hall.
  - now split.
  - apply load_all_cons in Hall as (img & imgs' & -> & Hload & Hall).
    apply (load_image_stable _ _ _ s) in Hload; [|exact Hkept].
    rewrite predict_loop_cons.
    pose proof (process_image_keeps_models kw tmp tp names name file s Hs)
      as Hs'.
    pose proof (process_image_keeps kw tmp tp names name file s1 s
                  Hplain Hold Hkept) as Hkept'.
    assert (Hbody :
      outcome (process_image kw tmp tp names name file s) = Ok None /\
      count is_no_output_message
        (events (process_image kw tmp tp names name file s)) = 1).
    { clear Hs' Hkept' IH. unfold outcome in Hload. unfold count.
      body_cases kw s; cbn in Hload; tidy; cbn in *;
        try discriminate; now split. }
    destruct Hbody as [Hout Hcount].
    destruct (process_image kw tmp tp names name file s)
      as [[r s2] t1]; cbn in *. subst r.
    destruct (IH s2 imgs' Hs' Hkept' Hall) as [IHo IHc].
    destruct (predict_loop kw tmp tp names rest s2) as [[r s3] t2].
    cbn in *. split; [exact IHo|].
    unfold count in *. rewrite filter_app, List.length_app. lia.
Qed.

(** C4: when the output type is neither 'Download' nor 'nextcloud' and a
    plot is requested, predict never returns a handle and nothing is
    archived, opened or uploaded; and when the images enumerated by the
    set-up all load, no exception is raised: predict returns None, having
    printed 'no output type selected' once per image. *)
Theorem C4_unmatched_output_type kw s :
  output_type kw <> "Download" -> output_type kw <> "nextcloud" ->
  (PLD_plot kw || PLQ_plot kw)%bool = true ->
  (forall h, outcome (predict kw s) <> Ok (Some h)) /\
  Forall (fun e => is_delivery e = false) (events (predict kw s)) /\
  (forall tmp names fl s1 t0 imgs,
     predict_setup kw s = (Ok (tmp, (names, fl)), s1, t0) ->
     load_all (files kw) (map snd (combine names fl)) s1 = Some imgs ->
     outcome (predict kw s) = Ok None /\
     count is_no_output_message (events (predict kw s)) =
     List.length (combine names fl)).
Proof.
  intros Hd Hn Hflag.
  apply String.eqb_neq in Hd, Hn.
  split; [|split].
  - intros h. rewrite predict_run.
    destruct (predict_setup kw s) as [[[su|e] s1] t0]; [|discriminate].
    pose proof (predict_loop_no_handle kw (fst su) to_path (fst (snd su)))
      as Hloop.
    specialize (Hloop
      (fun name file s' h' =>
         ltac:(body_cases kw s'; tidy; discriminate))
      (combine (fst (snd su)) (snd (snd su))) s1 h).
    destruct (predict_loop _ _ _ _ _ s1) as [[r s2] t]. exact Hloop.
  - apply (predict_events (Forall (fun e => is_delivery e = false))).
    + constructor.
    + intros t0 R [->|[names ->]] HR;
        repeat (constructor; [reflexivity|]); exact HR.
    + intros tmp names name file s' Hs' R HR.
      body_cases kw s'; tidy; cbn;
        repeat (constructor; [reflexivity|]); exact HR.
  - intros tmp names fl s1 t0 imgs Hsetup Hall.
    pose proof (predict_setup_spec kw s) as [Hev Hpost].
    rewrite predict_run. rewrite Hsetup in *. cbn in Hpost, Hev.
    destruct Hpost as (HD & HQ & Hplain & Hold).
    cbn [fst snd].
    destruct (predict_loop_fallthrough kw tmp to_path names s1
                (combine names fl) Hd Hn Hflag Hplain Hold s1 imgs)
      as [Ho Hc]; [now split | now intros p c | exact Hall |].
    destruct (predict_loop _ _ _ _ _ s1) as [[r s2] t]. cbn in *.
    split; [exact Ho|].
    unfold count in *. rewrite filter_app, List.length_app, Hc.
    destruct Hev as [->|[ns ->]]; reflexivity.
Qed.

(** *** Download mode *)

Lemma process_image_download kw tmp tp names name file s img :
  models_loaded s ->
  outcome (load_image (files kw) file s) = Ok img ->
  output_type kw = "Download" ->
  (PLD_plot kw || PLQ_plot kw)%bool = true ->
  exists h s' t,
    process_image kw tmp tp names name file s = (Ok (Some h), s', t) /\
    h_path h = download_artifact kw tmp name /\
    fs_lookup (h_path h) (st_fs s') = Some (h_content h) /\
    In (EvOpen (h_path h)) t /\
    loaded_files t = [file] /\
    count is_PLD t = 1.
Proof.
  intros Hs Hload Hd Hflag. apply String.eqb_eq in Hd.
  unfold outcome in Hload. unfold download_artifact, output_path_of, count.
  body_cases kw s; cbn in Hload; tidy; cbn in *; try discriminate;
    eexists _, _, _; (split; [reflexivity|]); cbn;
    (split; [reflexivity|]);
    (split; [apply fs_lookup_write_eq|]);
    (split; [auto 20 using in_eq, in_cons|]); now split.
Qed.

(** C1: in download mode with a plot requested, once the set-up has
    enumerated at least one image (as it does for a zip upload of N >= 1
    images) and the first one loads, predict returns an open handle in the
    first run of the body: the handle is on the artifact of the first
    enumerated image, that file holds what the handle reads, and the first
    image is the only one that is loaded and the only one the detection
    stage runs on. *)
Theorem C1_download_returns_on_first_image kw s tmp n1 ns f1 fl s1 t0 img :
  predict_setup kw s = (Ok (tmp, (n1 :: ns, f1 :: fl)), s1, t0) ->
  outcome (load_image (files kw) f1 s1) = Ok img ->
  output_type kw = "Download" ->
  (PLD_plot kw || PLQ_plot kw)%bool = true ->
  exists h,
    outcome (predict kw s) = Ok (Some h) /\
    h_path h = download_artifact kw tmp n1 /\
    fs_lookup (h_path h) (st_fs (final (predict kw s))) = Some (h_content h) /\
    In (EvOpen (h_path h)) (events (predict kw s)) /\
    loaded_files (events (predict kw s)) = [f1] /\
    count is_PLD (events (predict kw s)) = 1.
Proof.
  intros Hsetup Hload Hd Hflag.
  pose proof (predict_setup_spec kw s) as [Hev Hpost].
  rewrite predict_run. rewrite Hsetup in *. cbn in Hpost, Hev.
  destruct Hpost as (HD & HQ & _).
  cbn [fst snd combine]. rewrite predict_loop_cons.
  destruct (process_image_download kw tmp to_path (n1 :: ns) n1 f1 s1 img)
    as (h & s' & t & -> & Hpath & Hfile & Hopen & Hloaded & Hcount);
    auto; [now split|].
  exists h. cbn. repeat split; auto.
  - apply in_or_app. now right.
  - destruct Hev as [->|[names ->]]; exact Hloaded.
  - unfold count in *. rewrite filter_app, List.length_app, Hcount.
    destruct Hev as [->|[names ->]]; reflexivity.
Qed.

Lemma plot_file_PLD o : plot_file o "PLD" = o ++ "_PLD.jpg".
Proof. reflexivity. Qed.

Lemma plot_file_PLQ o : plot_file o "PLQ" = o ++ "_PLQ.jpg".
Proof. reflexivity. Qed.

Lemma count_suffix_cons suf n l :
  count_suffix suf (n :: l) =
  (if Py.endswith n suf then 1 else 0) + count_suffix suf l.
Proof.
  unfold count_suffix. cbn [filter].
  destruct (Py.endswith n suf); reflexivity.
Qed.

Lemma strip_scratch tmp rel :
  Py.strip_prefix (tmp ++ "/") (tmp ++ "/" ++ rel) = Some rel.
Proof. rewrite <- app_assoc_s. apply strip_prefix_app. Qed.

Lemma scratch_path tmp name suffix :
  plain_dir tmp ->
  Py.path_join tmp (Py.drop_last4 (Py.basename name)) ++ suffix =
  tmp ++ "/" ++ (Py.drop_last4 (Py.basename name) ++ suffix).
Proof.
  intros Hplain.
  change (Py.path_join tmp (Py.drop_last4 (Py.basename name)))
    with (output_path_of tmp name).
  rewrite (output_path_plain _ _ Hplain), !app_assoc_s. reflexivity.
Qed.

Lemma scratch_long tmp rel :
  String.length tmp < String.length (tmp ++ "/" ++ rel).
Proof. rewrite !string_length_app. simpl. lia. Qed.

Lemma scratch_eqb tmp r1 r2 :
  (tmp ++ "/" ++ r1 =? tmp ++ "/" ++ r2) = (r1 =? r2).
Proof. now rewrite !app_eqb_cancel. Qed.

(** Three files written to a new directory are what the directory holds. *)
Lemma scratch_archive tmp (fs1 : fsmap) r1 r2 r3 c1 c2 c3 :
  older_than tmp fs1 ->
  (r1 =? r2) = false -> (r1 =? r3) = false -> (r2 =? r3) = false ->
  files_under tmp
    (fs_write (tmp ++ "/" ++ r3) c3
       (fs_write (tmp ++ "/" ++ r2) c2
          (fs_write (tmp ++ "/" ++ r1) c1 fs1))) =
  [(r1, c1); (r2, c2); (r3, c3)].
Proof.
  intros Hold H12 H13 H23.
  assert (Hnew : forall r, fs_lookup (tmp ++ "/" ++ r) fs1 = None).
  { intros r. apply (fs_lookup_fresh tmp); [exact Hold | apply scratch_long]. }
  rewrite (fs_write_new (tmp ++ "/" ++ r1)) by apply Hnew.
  rewrite (fs_write_new (tmp ++ "/" ++ r2)).
  2:{ rewrite fs_lookup_app, Hnew. cbn [fs_lookup].
      now rewrite scratch_eqb, H12. }
  rewrite (fs_write_new (tmp ++ "/" ++ r3)).
  2:{ rewrite !fs_lookup_app, Hnew. cbn [fs_lookup].
      now rewrite !scratch_eqb, H13, H23. }
  rewrite !files_under_app, (files_under_fresh _ _ Hold).
  cbn [files_under app]. now rewrite !strip_scratch.
Qed.

Lemma perm_flat_map {A B : Type} (f : A -> list B) (l l' : list A) :
  Permutation l l' -> Permutation (flat_map f l) (flat_map f l').
Proof.
  induction 1 as [|x l l' _ IH|x y l|l l' l'' _ IH1 _ IH2]; simpl.
  - constructor.
  - now apply Permutation_app_head.
  - rewrite !app_assoc. apply Permutation_app_tail, Permutation_app_comm.
  - now apply (Permutation_trans IH1).
Qed.

Lemma count_suffix_perm suf (l l' : list string) :
  Permutation l l' -> count_suffix suf l = count_suffix suf l'.
Proof.
  induction 1 as [|x l l' _ IH|x y l|l l' l'' _ IH1 _ IH2].
  - reflexivity.
  - now rewrite !count_suffix_cons, IH.
  - rewrite !count_suffix_cons. lia.
  - congruence.
Qed.

(** The archive of a new directory that three files were written to holds
    these three files, in the order the file system gives them. *)
Lemma walk_three tmp (fs1 : fsmap) r1 r2 r3 c1 c2 c3 :
  older_than tmp fs1 ->
  (r1 =? r2) = false -> (r1 =? r3) = false -> (r2 =? r3) = false ->
  Permutation
    (walk tmp
       (fs_write (tmp ++ "/" ++ r3) c3
          (fs_write (tmp ++ "/" ++ r2) c2
             (fs_write (tmp ++ "/" ++ r1) c1 fs1))))
    [(r1, c1); (r2, c2); (r3, c3)].
Proof.
  intros Hold H12 H13 H23. unfold walk.
  rewrite (scratch_archive tmp fs1 r1 r2 r3 c1 c2 c3 Hold H12 H13 H23).
  eapply Permutation_trans.
  - apply perm_flat_map, listdir_order_perm.
  - cbn [map fst flat_map fs_lookup app].
    rewrite !String.eqb_refl, H12, H13, H23. apply Permutation_refl.
Qed.

(** X16: in download mode with both plots requested, once the set-up has
    enumerated an image and it loads, predict returns a handle on the zip
    archive of the scratch directory, and the archive holds, in the order
    the file system gives them, exactly three entries: the PLD plot and the
    PLQ plot of that image, two .jpg files, and its workbook, one .xlsx
    file. *)
Theorem download_both_archive kw s tmp n1 ns f1 fl s1 t0 img :
  predict_setup kw s = (Ok (tmp, (n1 :: ns, f1 :: fl)), s1, t0) ->
  outcome (load_image (files kw) f1 s1) = Ok img ->
  output_type kw = "Download" ->
  PLD_plot kw = true -> PLQ_plot kw = true ->
  let stem := Py.drop_last4 (Py.basename n1) in
  let res := PLD_result img (n1 :: ns) (preprocessing_warm model_name_PLD) in
  let res' := PLQ_result (c_matrix res) img (n1 :: ns)
                (preprocessing_warm model_name_PLQ) in
  let written :=
    [(stem ++ "_PLD.jpg", Raw (savefig_bytes (ResultPlot (inl res) "PLD")));
     (stem ++ "_PLQ.jpg", Raw (savefig_bytes (ResultPlot (inr res') "PLQ")));
     (stem ++ "_litter_items.xlsx",
      Xlsx [("Litter Detection", PLD_df res "PLD");
            ("Litter Quantification", PLQ_df res' "PLQ")])] in
  exists members,
    outcome (predict kw s) =
      Ok (Some (mkHandle (tmp ++ ".zip") (Zip members))) /\
    fs_lookup (tmp ++ ".zip") (st_fs (final (predict kw s))) =
      Some (Zip members) /\
    Permutation members written /\
    List.length members = 3 /\
    count_suffix ".xlsx" (map fst members) = 1 /\
    count_suffix ".jpg" (map fst members) = 2.
Proof.
  intros Hsetup Hload Hd Hp Hq stem res res' written.
  pose proof (predict_setup_spec kw s) as [_ Hpost].
  rewrite predict_run. rewrite Hsetup in *. cbn in Hpost.
  destruct Hpost as (HD & HQ & Hplain & Hold).
  cbn [fst snd combine]. rewrite predict_loop_cons.
  assert (Hbody : exists s' t members,
    process_image kw tmp to_path (n1 :: ns) n1 f1 s1 =
    (Ok (Some (mkHandle (tmp ++ ".zip") (Zip members))), s', t) /\
    fs_lookup (tmp ++ ".zip") (st_fs s') = Some (Zip members) /\
    Permutation members written).
  { apply String.eqb_eq in Hd. unfold outcome in Hload.
    assert (Harch :
      Permutation
        (walk tmp
           (fs_write (tmp ++ "/" ++ (stem ++ "_litter_items.xlsx"))
              (snd (nth 2 written ("", Dir)))
              (fs_write (tmp ++ "/" ++ (stem ++ "_PLQ.jpg"))
                 (snd (nth 1 written ("", Dir)))
                 (fs_write (tmp ++ "/" ++ (stem ++ "_PLD.jpg"))
                    (snd (nth 0 written ("", Dir))) (st_fs s1)))))
        written).
    { apply walk_three; [exact Hold | | |];
        rewrite app_eqb_cancel; reflexivity. }
    subst written stem res res'. cbn [nth snd] in *.
    body_cases kw s1; cbn in Hload; tidy.
    rewrite !plot_file_PLD, !plot_file_PLQ.
    rewrite !(scratch_path tmp n1) by exact Hplain.
    eexists _, _, _. split; [reflexivity|].
    split; [apply fs_lookup_write_eq | exact Harch]. }
  destruct Hbody as (s' & t & members & -> & Hzip & Hperm).
  cbn [outcome final fst snd]. exists members.
  split; [reflexivity|]. split; [exact Hzip|]. split; [exact Hperm|].
  split; [now rewrite (Permutation_length Hperm)|].
  rewrite !(count_suffix_perm _ _ _ (Permutation_map fst Hperm)).
  subst written. cbn [map fst].
  rewrite !count_suffix_cons, !endswith_app by (simpl; lia).
  split; reflexivity.
Qed.

(** The name a plot is saved under, for every file name: the base name
    without its last four characters, whatever they are. *)
Lemma plot_file_drops_four_characters tmp name type :
  plain_dir tmp ->
  plot_file (output_path_of tmp name) type =
  tmp ++ "/" ++ Py.drop_last4 (Py.basename name) ++ "_" ++ type ++ ".jpg".
Proof.
  intros Hplain. unfold plot_file.
  rewrite (output_path_plain _ _ Hplain), !app_assoc_s. reflexivity.
Qed.

(** *** The inputs *)

(** C8: for an upload of content type 'application/zip' whose stored file
    is an archive, get_input_data creates a new, empty temporary directory,
    extracts every entry of the archive into it and returns the listing of
    that directory as the names, with as many paths as names, the i-th path
    being the temporary directory joined with the i-th name; for any other
    content type it returns the original file name as the only name and the
    stored file as the only path, and touches nothing. *)
Theorem C8_get_input_data data s :
  (content_type data = "application/zip" ->
   forall members,
     fs_lookup (filename data) (st_fs s) = Some (Zip members) ->
     let tmp := mkdtemp_name (st_fs s) in
     let fs' := extractall members tmp (fs_write tmp Dir (st_fs s)) in
     let names := listdir tmp fs' in
     files_under tmp (fs_write tmp Dir (st_fs s)) = [] /\
     exists paths,
       get_input_data data s =
       (Ok (names, paths), mkState fs' (model_PLD s) (model_PLQ s), []) /\
       List.length names = List.length paths /\
       forall i n, nth_error names i = Some n ->
                   nth_error paths i = Some (PyPath (Py.path_join tmp n))) /\
  (content_type data <> "application/zip" ->
   get_input_data data s =
   (Ok ([original_filename data], [PyPath (filename data)]), s, [])).
Proof.
  split.
  - intros Hct members Hzip tmp fs' names.
    split; [apply files_under_fresh, mkdtemp_fresh|].
    exists (map (fun n => PyPath (Py.path_join tmp n)) names).
    split; [|split].
    + unfold get_input_data, mkdtemp, ZipFile, bind, ret, get_fs, put_fs.
      rewrite Hct. cbn -[mkdtemp_name].
      rewrite fs_lookup_write_neq, Hzip; [reflexivity|].
      apply eqb_length_neq. apply fs_lookup_In, max_path_length_bound in Hzip.
      rewrite mkdtemp_name_length. lia.
    + now rewrite length_map.
    + intros i n Hn. now rewrite nth_error_map, Hn.
  - intros Hct. unfold get_input_data.
    apply String.eqb_neq in Hct. now rewrite Hct.
Qed.

(** ** More on the runs of predict *)

Lemma loaded_files_app (a b : list event) :
  loaded_files (a ++ b) = (loaded_files a ++ loaded_files b)%list.
Proof.
  induction a as [|e a IH]; [reflexivity|].
  destruct e; cbn; now rewrite ?IH.
Qed.

Lemma setup_events_no_load t0 : setup_events t0 -> loaded_files t0 = [].
Proof. now intros [->|[names ->]]. Qed.

(** Finds the events before the last one of an explicit list. *)
Ltac split_last :=
  first [ exists []; reflexivity
        | eexists [_]; reflexivity
        | eexists [_; _]; reflexivity
        | eexists [_; _; _]; reflexivity
        | eexists [_; _; _; _]; reflexivity
        | eexists [_; _; _; _; _]; reflexivity
        | eexists [_; _; _; _; _; _]; reflexivity
        | eexists [_; _; _; _; _; _; _]; reflexivity
        | eexists [_; _; _; _; _; _; _; _]; reflexivity
        | eexists [_; _; _; _; _; _; _; _; _]; reflexivity
        | eexists [_; _; _; _; _; _; _; _; _; _]; reflexivity ].

Lemma predict_loop_keeps_models kw tmp tp names items :
  forall s, models_loaded s ->
    models_loaded (final (predict_loop kw tmp tp names items s)).
Proof.
  induction items as [|[name file] rest IH]; intros s Hs; [exact Hs|].
  rewrite predict_loop_cons.
  pose proof (process_image_keeps_models kw tmp tp names name file s Hs)
    as Hs'.
  destruct (process_image kw tmp tp names name file s)
    as [[[[h|]|e] s1] t1]; cbn in *; auto.
  specialize (IH s1 Hs').
  destruct (predict_loop kw tmp tp names rest s1) as [[r s2] t2]. exact IH.
Qed.

Lemma predict_setup_models kw s :
  models_loaded (final (predict_setup kw s)).
Proof.
  unfold predict_setup, load_models, get_input_data, mkdtemp, ZipFile,
    bind, emit, ret, raise, get_fs, put_fs, models_loaded, final.
  cbn.
  destruct (content_type (files kw) =? "application/zip"); cbn.
  - destruct (fs_lookup (filename (files kw)) _) as [[b|m|sh|]|]; cbn;
      try (now split).
    destruct (face_detection kw); cbn; now split.
  - destruct (face_detection kw); cbn; now split.
Qed.

(** *** Handles *)

Lemma process_image_handle kw tmp tp names name file s h :
  outcome (process_image kw tmp tp names name file s) = Ok (Some h) ->
  output_type kw = "Download" /\
  (PLD_plot kw || PLQ_plot kw)%bool = true /\
  fs_lookup (h_path h)
    (st_fs (final (process_image kw tmp tp names name file s))) =
    Some (h_content h) /\
  exists pre,
    events (process_image kw tmp tp names name file s) =
    (pre ++ [EvOpen (h_path h)])%list.
Proof.
  body_cases kw s; intros Hh; try discriminate Hh;
    injection Hh as <-; cbn;
    (split; [now apply String.eqb_eq|]);
    (split; [reflexivity|]);
    (split; [apply fs_lookup_write_eq | split_last]).
Qed.

Lemma predict_loop_handle kw tmp tp names items :
  forall s h,
    outcome (predict_loop kw tmp tp names items s) = Ok (Some h) ->
    output_type kw = "Download" /\
    (PLD_plot kw || PLQ_plot kw)%bool = true /\
    fs_lookup (h_path h)
      (st_fs (final (predict_loop kw tmp tp names items s))) =
      Some (h_content h) /\
    exists pre,
      events (predict_loop kw tmp tp names items s) =
      (pre ++ [EvOpen (h_path h)])%list.
Proof.
  induction items as [|[name file] rest IH]; intros s h; [discriminate|].
  rewrite predict_loop_cons.
  pose proof (process_image_handle kw tmp tp names name file s) as Hb.
  destruct (process_image kw tmp tp names name file s)
    as [[[[h'|]|e] s1] t1]; cbn in *.
  - intros [= <-]. now apply Hb.
  - specialize (IH s1 h).
    destruct (predict_loop kw tmp tp names rest s1) as [[r s2] t2].
    cbn in *. intros Hr.
    destruct (IH Hr) as (Hd & Hf & Hl & pre & ->).
    repeat split; auto. exists (t1 ++ pre)%list. now rewrite app_assoc.
  - discriminate.
Qed.

(** X1: predict hands a file handle back only in download mode with a
    plot requested; the handle is then on a file that exists when predict
    returns and holds what the handle reads, and opening it is the last
    thing predict does. *)
Theorem handle_only_in_download_mode kw s h :
  outcome (predict kw s) = Ok (Some h) ->
  output_type kw = "Download" /\
  (PLD_plot kw || PLQ_plot kw)%bool = true /\
  fs_lookup (h_path h) (st_fs (final (predict kw s))) = Some (h_content h) /\
  exists pre, events (predict kw s) = (pre ++ [EvOpen (h_path h)])%list.
Proof.
  rewrite predict_run.
  destruct (predict_setup kw s) as [[[su|e] s1] t0]; [|discriminate].
  pose proof (predict_loop_handle kw (fst su) to_path (fst (snd su))
                (combine (fst (snd su)) (snd (snd su))) s1 h) as Hloop.
  destruct (predict_loop _ _ _ _ _ s1) as [[r s2] t]. cbn in *.
  intros Hr. destruct (Hloop Hr) as (Hd & Hf & Hl & pre & ->).
  repeat split; auto. exists (t0 ++ pre)%list. now rewrite app_assoc.
Qed.

(** *** The order of the images *)

Lemma process_image_loads_its_file kw tmp tp names name file s :
  loaded_files (events (process_image kw tmp tp names name file s)) = [file].
Proof. body_cases kw s; reflexivity. Qed.

Lemma predict_loop_loads_in_order kw tmp tp names items :
  forall s, exists k,
    loaded_files (events (predict_loop kw tmp tp names items s)) =
    firstn k (map snd items).
Proof.
  induction items as [|[name file] rest IH]; intros s; [now exists 0|].
  rewrite predict_loop_cons.
  pose proof (process_image_loads_its_file kw tmp tp names name file s)
    as Hb.
  destruct (process_image kw tmp tp names name file s)
    as [[[[h'|]|e'] s1] t1]; cbn in *.
  - exists 1. now rewrite Hb.
  - destruct (IH s1) as [k Hk].
    destruct (predict_loop kw tmp tp names rest s1) as [[r s2] t2].
    cbn in *. exists (S k). now rewrite loaded_files_app, Hb, Hk.
  - exists 1. now rewrite Hb.
Qed.

(** X3: the images are loaded in the order of zip(image_names,
    image_files), each at most once and none before an earlier one: the files
    predict loads are the first k files of that enumeration, for some k, and
    none at all when the set-up raises. *)
Theorem images_loaded_in_order kw s :
  match outcome (predict_setup kw s) with
  | Ok su =>
      exists k,
        loaded_files (events (predict kw s)) =
        firstn k (map snd (combine (fst (snd su)) (snd (snd su))))
  | Raise _ => loaded_files (events (predict kw s)) = []
  end.
Proof.
  rewrite predict_run.
  destruct (predict_setup_spec kw s) as [Hev _].
  apply setup_events_no_load in Hev.
  destruct (predict_setup kw s) as [[[su|e'] s1] t0]; cbn in *.
  - destruct (predict_loop_loads_in_order kw (fst su) to_path (fst (snd su))
                (combine (fst (snd su)) (snd (snd su))) s1) as [k Hk].
    destruct (predict_loop _ _ _ _ _ s1) as [[r s2] t]. cbn in *.
    exists k. now rewrite loaded_files_app, Hev, Hk.
  - exact Hev.
Qed.

(** *** The models *)

(** X4: after warm() and after every call of predict, whether it returns
    or raises, the two module-level names are bound to the models
    preprocessing.warm gives for the two model files; warm() itself touches
    no file and does nothing else than the two loads. *)
Theorem models_bound_after_every_call kw s :
  models_loaded (final (predict kw s)) /\
  models_loaded (final (warm s)) /\
  st_fs (final (warm s)) = st_fs s /\
  events (warm s) = [EvWarm model_name_PLD; EvWarm model_name_PLQ].
Proof.
  split; [|repeat split].
  rewrite predict_run.
  pose proof (predict_setup_models kw s) as Hmodels.
  destruct (predict_setup kw s) as [[[su|e'] s1] t0]; cbn in *; auto.
  pose proof (predict_loop_keeps_models kw (fst su) to_path (fst (snd su))
                (combine (fst (snd su)) (snd (snd su))) s1 Hmodels) as Hloop.
  destruct (predict_loop _ _ _ _ _ s1) as [[r s2] t]. exact Hloop.
Qed.

(** *** Uploads *)

Lemma saved_plot_PLD o : saved_plot (plot_file o "PLD").
Proof. exists o, "PLD". split; [now left | reflexivity]. Qed.

Lemma saved_plot_PLQ o : saved_plot (plot_file o "PLQ").
Proof. exists o, "PLQ". split; [now right | reflexivity]. Qed.

(** X5: for every request, each file predict uploads is a PLD or PLQ plot
    file that it saved immediately before, and it is copied to the one
    remote path 'rshare:iMagine_UC1/results'; in particular the workbook is
    never uploaded. *)
Theorem uploads_are_saved_plots kw s :
  uploads_follow_savefig None (events (predict kw s)).
Proof.
  apply (predict_events
           (fun tr => forall prev, uploads_follow_savefig prev tr)).
  - intros prev. exact I.
  - intros t0 R [->|[names ->]] HR prev; cbn; apply HR.
  - intros tmp names name file s' Hs' R HR prev.
    body_cases kw s'; tidy; cbn;
      repeat (split; [first [reflexivity | apply saved_plot_PLD
                            | apply saved_plot_PLQ]|]);
      apply HR.
Qed.

(** X6: in nextcloud mode every plot is rendered and saved twice, once by
    return_plot and once more by save_plot_nextcloud before the upload: a
    call saves twice as many plot files as it uploads. *)
Theorem nextcloud_saves_each_plot_twice kw s :
  output_type kw = "nextcloud" ->
  count is_savefig (events (predict kw s)) =
  2 * count is_upload (events (predict kw s)).
Proof.
  intros Hn.
  assert (Hd : (output_type kw =? "Download") = false) by now rewrite Hn.
  apply String.eqb_eq in Hn. unfold count.
  apply (predict_events
           (fun tr => List.length (filter is_savefig tr) =
                      2 * List.length (filter is_upload tr))).
  - reflexivity.
  - intros t0 R [->|[names ->]] HR; cbn; exact HR.
  - intros tmp names name file s' Hs' R HR.
    body_cases kw s'; tidy; cbn; lia.
Qed.

Lemma predict_loop_nextcloud kw tmp tp names s1 items :
  (output_type kw =? "Download") = false ->
  (output_type kw =? "nextcloud") = true ->
  (PLD_plot kw || PLQ_plot kw)%bool = true ->
  plain_dir tmp -> older_than tmp (st_fs s1) ->
  forall s imgs,
    models_loaded s -> kept (st_fs s1) (st_fs s) ->
    load_all (files kw) (map snd items) s1 = Some imgs ->
    outcome (predict_loop kw tmp tp names items s) = Ok None /\
    loaded_files (events (predict_loop kw tmp tp names items s)) =
      map snd items /\
    count is_upload (events (predict_loop kw tmp tp names items s)) =
      (if (PLD_plot kw && PLQ_plot kw)%bool then 2 else 1)
      * List.length items.
Proof.
  intros Hd Hn Hflag Hplain Hold.
  induction items as [|[name file] rest IH]; intros s imgs Hs Hkept Hall.
  - repeat split. cbn. lia.
  - apply load_all_cons in Hall as (img & imgs' & -> & Hload & Hall).
    apply (load_image_stable _ _ _ s) in Hload; [|exact Hkept].
    rewrite predict_loop_cons.
    pose proof (process_image_keeps_models kw tmp tp names name file s Hs)
      as Hs'.
    pose proof (process_image_keeps kw tmp tp names name file s1 s
                  Hplain Hold Hkept) as Hkept'.
    pose proof (process_image_loads_its_file kw tmp tp names name file s)
      as Hfile.
    assert (Hbody :
      outcome (process_image kw tmp tp names name file s) = Ok None /\
      count is_upload
        (events (process_image kw tmp tp names name file s)) =
      (if (PLD_plot kw && PLQ_plot kw)%bool then 2 else 1)).
    { clear Hs' Hkept' IH Hfile. unfold outcome in Hload. unfold count.
      body_cases kw s; cbn in Hload; tidy; cbn in *;
        try discriminate; now split. }
    destruct Hbody as [Hout Hcount].
    destruct (process_image kw tmp tp names name file s)
      as [[r s2] t1]; cbn in *. subst r.
    destruct (IH s2 imgs' Hs' Hkept' Hall) as (IHo & IHl & IHc).
    destruct (predict_loop kw tmp tp names rest s2) as [[r s3] t2].
    cbn in *. split; [exact IHo|]. split.
    + now rewrite loaded_files_app, Hfile, IHl.
    + unfold count in *. rewrite filter_app, List.length_app, Hcount, IHc.
      lia.
Qed.

(** X7: in nextcloud mode with a plot requested, when the images
    enumerated by the set-up all load, predict goes through every one of
    them, in order, uploads two files per image when both plots are
    requested and one otherwise, and returns None. *)
Theorem nextcloud_uploads_every_image kw s tmp names fl s1 t0 imgs :
  output_type kw = "nextcloud" ->
  (PLD_plot kw || PLQ_plot kw)%bool = true ->
  predict_setup kw s = (Ok (tmp, (names, fl)), s1, t0) ->
  load_all (files kw) (map snd (combine names fl)) s1 = Some imgs ->
  outcome (predict kw s) = Ok None /\
  loaded_files (events (predict kw s)) = map snd (combine names fl) /\
  count is_upload (events (predict kw s)) =
    (if (PLD_plot kw && PLQ_plot kw)%bool then 2 else 1)
    * List.length (combine names fl).
Proof.
  intros Hn Hflag Hsetup Hall.
  assert (Hd : (output_type kw =? "Download") = false) by now rewrite Hn.
  apply String.eqb_eq in Hn.
  pose proof (predict_setup_spec kw s) as [Hev Hpost].
  rewrite predict_run. rewrite Hsetup in *. cbn in Hpost, Hev.
  destruct Hpost as (HD & HQ & Hplain & Hold).
  cbn [fst snd].
  destruct (predict_loop_nextcloud kw tmp to_path names s1
              (combine names fl) Hd Hn Hflag Hplain Hold s1 imgs)
    as (Ho & Hl & Hc); [now split | now intros p c | exact Hall |].
  destruct (predict_loop _ _ _ _ _ s1) as [[r s2] t]. cbn in *.
  split; [exact Ho|]. split.
  - now rewrite loaded_files_app, (setup_events_no_load _ Hev), Hl.
  - unfold count in *. rewrite filter_app, List.length_app, Hc.
    destruct Hev as [->|[ns ->]]; reflexivity.
Qed.

(** *** The files that were there before *)

Lemma kept_refl (fs : fsmap) : kept fs fs.
Proof. now intros p c. Qed.

Lemma kept_trans (fs1 fs2 fs3 : fsmap) :
  kept fs1 fs2 -> kept fs2 fs3 -> kept fs1 fs3.
Proof. intros H12 H23 p c Hp. now apply H23, H12. Qed.

Lemma kept_write_longer (fs1 fs' : fsmap) q c :
  kept fs1 fs' ->
  (forall p d, fs_lookup p fs1 = Some d -> String.length p < String.length q) ->
  kept fs1 (fs_write q c fs').
Proof.
  intros Hkept Hlen p d Hp.
  rewrite fs_lookup_write_neq; [now apply Hkept|].
  apply eqb_length_neq. specialize (Hlen p d Hp). lia.
Qed.

(** Creating a temporary directory leaves every file as it is. *)
Lemma kept_mkdtemp (fs1 fs' : fsmap) :
  kept fs1 fs' -> kept fs1 (fs_write (mkdtemp_name fs') Dir fs').
Proof.
  intros Hkept. apply kept_write_longer; [exact Hkept|].
  intros p d Hp. apply Hkept, fs_lookup_In, max_path_length_bound in Hp.
  rewrite mkdtemp_name_length. lia.
Qed.

Lemma kept_mkdir_longer (fs1 fs' : fsmap) q :
  kept fs1 fs' ->
  (forall p d, fs_lookup p fs1 = Some d -> String.length p < String.length q) ->
  kept fs1 (fs_mkdir q fs').
Proof.
  intros Hkept Hlen. unfold fs_mkdir.
  destruct (fs_lookup q fs'); [exact Hkept | now apply kept_write_longer].
Qed.

Lemma kept_extract_member (fs1 : fsmap) tmp e :
  (forall p d, fs_lookup p fs1 = Some d ->
               String.length p <= String.length tmp) ->
  forall fs', kept fs1 fs' -> kept fs1 (extract_member tmp e fs').
Proof.
  intros Hlen fs' Hkept.
  assert (Hlong : forall rel p d, fs_lookup p fs1 = Some d ->
            String.length p < String.length (tmp ++ "/" ++ rel)).
  { intros rel p d Hp. specialize (Hlen p d Hp).
    pose proof (scratch_long tmp rel). lia. }
  assert (Hdirs : forall l fs0, kept fs1 fs0 ->
            kept fs1 (fold_left (fun acc p => fs_mkdir (tmp ++ "/" ++ p) acc)
                        l fs0)).
  { induction l as [|p l IH]; intros fs0 H0; [exact H0|].
    cbn [fold_left]. apply IH, kept_mkdir_longer; [exact H0 | apply Hlong]. }
  unfold extract_member.
  destruct (snd e);
    first [ apply kept_write_longer; [now apply Hdirs | apply Hlong]
          | apply kept_mkdir_longer; [now apply Hdirs | apply Hlong] ].
Qed.

Lemma kept_extractall (fs1 : fsmap) tmp members :
  (forall p d, fs_lookup p fs1 = Some d ->
               String.length p <= String.length tmp) ->
  forall fs', kept fs1 fs' -> kept fs1 (extractall members tmp fs').
Proof.
  intros Hlen. induction members as [|e ms IH]; intros fs' Hkept;
    [exact Hkept|].
  cbn [extractall]. now apply IH, kept_extract_member.
Qed.

Lemma predict_setup_keeps kw s :
  face_detection kw = false ->
  kept (st_fs s) (st_fs (final (predict_setup kw s))).
Proof.
  intros Hface.
  unfold predict_setup, load_models, get_input_data, mkdtemp, ZipFile,
    bind, emit, ret, raise, get_fs, put_fs, final.
  rewrite Hface. cbn -[mkdtemp_name].
  destruct (content_type (files kw) =? "application/zip");
    cbn -[mkdtemp_name].
  - destruct (fs_lookup (filename (files kw)) _) as [[b|m|sh|]|];
      cbn -[mkdtemp_name];
      try (apply kept_mkdtemp, kept_refl).
    apply kept_mkdtemp, kept_extractall.
    + intros p d Hp. apply fs_lookup_In, max_path_length_bound in Hp.
      rewrite mkdtemp_name_length. lia.
    + apply kept_mkdtemp, kept_refl.
  - apply kept_mkdtemp, kept_refl.
Qed.

Lemma predict_setup_scratch kw s tmp inp s1 t0 :
  predict_setup kw s = (Ok (tmp, inp), s1, t0) ->
  fs_lookup tmp (st_fs s1) = Some Dir.
Proof.
  unfold predict_setup, load_models, get_input_data, mkdtemp, ZipFile,
    bind, emit, ret, raise, get_fs, put_fs.
  cbn -[mkdtemp_name].
  destruct (content_type (files kw) =? "application/zip");
    cbn -[mkdtemp_name].
  - destruct (fs_lookup (filename (files kw)) _) as [[b|m|sh|]|];
      cbn -[mkdtemp_name]; try discriminate.
    destruct (face_detection kw); cbn -[mkdtemp_name];
      intros [= <- <- <- <-]; apply fs_lookup_write_eq.
  - destruct (face_detection kw); cbn -[mkdtemp_name];
      intros [= <- <- <- <-]; apply fs_lookup_write_eq.
Qed.

Lemma predict_loop_keeps kw tmp tp names s1 items :
  plain_dir tmp -> older_than tmp (st_fs s1) ->
  forall s, kept (st_fs s1) (st_fs s) ->
    kept (st_fs s1) (st_fs (final (predict_loop kw tmp tp names items s))).
Proof.
  intros Hplain Hold.
  induction items as [|[name file] rest IH]; intros s Hkept; [exact Hkept|].
  rewrite predict_loop_cons.
  pose proof (process_image_keeps kw tmp tp names name file s1 s
                Hplain Hold Hkept) as Hkept'.
  destruct (process_image kw tmp tp names name file s)
    as [[[[h'|]|e'] s2] t1]; cbn in *; auto.
  specialize (IH s2 Hkept').
  destruct (predict_loop kw tmp tp names rest s2) as [[r s3] t2]. exact IH.
Qed.

(** X8: whether it returns or raises, predict leaves every file that was
    there after its set-up as it was, the stored upload and the extracted
    images included: the loop writes to the scratch directory and to its
    zip only; and the scratch directory is never removed, it is still there
    after the call.  Without face detection the same holds of every file
    that was there before the call. *)
Theorem predict_keeps_existing_files kw s :
  (face_detection kw = false ->
   kept (st_fs s) (st_fs (final (predict kw s)))) /\
  (forall tmp names fl s1 t0,
     predict_setup kw s = (Ok (tmp, (names, fl)), s1, t0) ->
     kept (st_fs s1) (st_fs (final (predict kw s))) /\
     fs_lookup tmp (st_fs (final (predict kw s))) = Some Dir).
Proof.
  assert (Hloop : forall tmp names fl s1 t0,
    predict_setup kw s = (Ok (tmp, (names, fl)), s1, t0) ->
    kept (st_fs s1) (st_fs (final (predict kw s)))).
  { intros tmp names fl s1 t0 Hsetup.
    pose proof (predict_setup_spec kw s) as [_ Hpost].
    rewrite predict_run. rewrite Hsetup in *. cbn in Hpost.
    destruct Hpost as (_ & _ & Hplain & Hold). cbn [fst snd].
    pose proof (predict_loop_keeps kw tmp to_path names s1
                  (combine names fl) Hplain Hold s1 (kept_refl _)) as Hk.
    destruct (predict_loop _ _ _ _ _ s1) as [[r s2] t]. exact Hk. }
  split.
  - intros Hface. pose proof (predict_setup_keeps kw s Hface) as Hsetup.
    destruct (predict_setup kw s) as [[[[tmp [names fl]]|e'] s1] t0] eqn:E.
    + apply (kept_trans _ (st_fs s1)); [exact Hsetup|].
      now apply (Hloop tmp names fl s1 t0).
    + rewrite predict_run, E. exact Hsetup.
  - intros tmp names fl s1 t0 Hsetup. split.
    + now apply (Hloop tmp names fl s1 t0).
    + apply (Hloop tmp names fl s1 t0 Hsetup).
      now apply (predict_setup_scratch kw s tmp (names, fl) s1 t0).
Qed.

(** *** Uploads that cannot be read *)

(** X9: when the upload is declared 'application/zip' but the stored file
    holds plain bytes, not an archive, predict raises BadZipFile after it
    has loaded the two models and created the temporary directory of
    get_input_data, which it leaves behind; no image is looked at. *)
Theorem zip_upload_that_is_no_archive kw s b :
  content_type (files kw) = "application/zip" ->
  fs_lookup (filename (files kw)) (st_fs s) = Some (Raw b) ->
  predict kw s =
  (Raise BadZipFile,
   mkState (fs_write (mkdtemp_name (st_fs s)) Dir (st_fs s))
     (Some (preprocessing_warm model_name_PLD))
     (Some (preprocessing_warm model_name_PLQ)),
   [EvWarm model_name_PLD; EvWarm model_name_PLQ]).
Proof.
  intros Hct Hfile.
  unfold predict, predict_setup, load_models, get_input_data, mkdtemp,
    ZipFile, bind, emit, ret, raise, get_fs, put_fs.
  rewrite Hct. cbn -[mkdtemp_name].
  rewrite fs_lookup_write_neq, Hfile; [reflexivity|].
  apply eqb_length_neq. apply fs_lookup_In, max_path_length_bound in Hfile.
  rewrite mkdtemp_name_length. lia.
Qed.

(** X10: an upload of content type 'application/octet-stream' without face
    detection always fails: the stored file reaches get_arr_from_bin as a
    path, io.BytesIO raises TypeError on it, and predict stops at the first
    image, after the models were loaded and the scratch directory created,
    before any stage has run. *)
Theorem octet_stream_path_raises_type_error kw s :
  content_type (files kw) = "application/octet-stream" ->
  face_detection kw = false ->
  predict kw s =
  (Raise TypeError,
   mkState (fs_write (mkdtemp_name (st_fs s)) Dir (st_fs s))
     (Some (preprocessing_warm model_name_PLD))
     (Some (preprocessing_warm model_name_PLQ)),
   [EvWarm model_name_PLD; EvWarm model_name_PLQ;
    EvLoad (PyPath (filename (files kw)))]).
Proof.
  intros Hct Hface.
  unfold predict, predict_setup, load_models, get_input_data, mkdtemp,
    bind, emit, ret, raise, get_fs, put_fs.
  rewrite Hct, Hface. cbn -[mkdtemp_name].
  unfold process_image, load_image, get_arr_from_bin, bind, emit, raise.
  rewrite Hct. reflexivity.
Qed.

(** *** One plot, downloaded *)

Lemma scratch_single tmp (fs1 : fsmap) rel c :
  older_than tmp fs1 ->
  files_under tmp (fs_write (tmp ++ "/" ++ rel) c fs1) = [(rel, c)].
Proof.
  intros Hold.
  rewrite fs_write_new
    by (apply (fs_lookup_fresh tmp); [exact Hold | apply scratch_long]).
  rewrite files_under_app, (files_under_fresh _ _ Hold).
  cbn [files_under app]. now rewrite strip_scratch.
Qed.

(** X11: in download mode with exactly one plot requested, once the first
    enumerated image loads, predict returns a handle on that plot of the
    image, and all it has added to the files the set-up left is this one
    plot, in the scratch directory: no workbook is written and no archive
    is made, there is no [<scratch>.zip], also when the quantification plot
    is the one requested. *)
Theorem single_plot_download kw s tmp n1 ns f1 fl s1 t0 img :
  predict_setup kw s = (Ok (tmp, (n1 :: ns, f1 :: fl)), s1, t0) ->
  outcome (load_image (files kw) f1 s1) = Ok img ->
  output_type kw = "Download" ->
  (PLD_plot kw && PLQ_plot kw)%bool = false ->
  (PLD_plot kw || PLQ_plot kw)%bool = true ->
  let stem := Py.drop_last4 (Py.basename n1) in
  let res := PLD_result img (n1 :: ns) (preprocessing_warm model_name_PLD) in
  let res' := PLQ_result (c_matrix res) img (n1 :: ns)
                (preprocessing_warm model_name_PLQ) in
  let rel := stem ++ (if PLD_plot kw then "_PLD.jpg" else "_PLQ.jpg") in
  let plot :=
    Raw (savefig_bytes
           (if PLD_plot kw then ResultPlot (inl res) "PLD"
            else ResultPlot (inr res') "PLQ")) in
  outcome (predict kw s) = Ok (Some (mkHandle (tmp ++ "/" ++ rel) plot)) /\
  st_fs (final (predict kw s)) =
    (st_fs s1 ++ [((tmp ++ "/" ++ rel)%string, plot)])%list /\
  files_under tmp (st_fs (final (predict kw s))) = [(rel, plot)] /\
  fs_lookup (tmp ++ ".zip") (st_fs (final (predict kw s))) = None /\
  Forall (fun e => is_workbook e = false /\ is_archive e = false)
    (events (predict kw s)).
Proof.
  intros Hsetup Hload Hd Hone Hflag stem res res' rel plot.
  pose proof (predict_setup_spec kw s) as [Hev Hpost].
  rewrite predict_run. rewrite Hsetup in *. cbn in Hpost, Hev.
  destruct Hpost as (HD & HQ & Hplain & Hold).
  cbn [fst snd combine]. rewrite predict_loop_cons.
  assert (Hbody : exists s' t,
    process_image kw tmp to_path (n1 :: ns) n1 f1 s1 =
    (Ok (Some (mkHandle (tmp ++ "/" ++ rel) plot)), s', t) /\
    st_fs s' = fs_write (tmp ++ "/" ++ rel) plot (st_fs s1) /\
    Forall (fun e => is_workbook e = false /\ is_archive e = false) t).
  { apply String.eqb_eq in Hd. unfold outcome in Hload.
    subst rel plot res res' stem.
    body_cases kw s1; cbn in Hload; tidy;
      rewrite ?plot_file_PLD, ?plot_file_PLQ;
      rewrite !(scratch_path tmp n1) by exact Hplain;
      rewrite ?fs_lookup_write_eq; eexists _, _;
      (split; [reflexivity|]); (split; [reflexivity|]);
      repeat (constructor; [now split|]); constructor. }
  destruct Hbody as (s' & t & -> & Hfs & Hnone).
  cbn [outcome final events fst snd].
  assert (Hnew : fs_lookup (tmp ++ "/" ++ rel) (st_fs s1) = None)
    by (apply (fs_lookup_fresh tmp); [exact Hold | apply scratch_long]).
  split; [reflexivity|]. rewrite Hfs.
  split; [now apply fs_write_new|].
  split; [now apply scratch_single|].
  split.
  - rewrite fs_lookup_write_neq
      by (rewrite app_eqb_cancel; reflexivity).
    apply (fs_lookup_fresh tmp); [exact Hold | apply zip_path_long].
  - apply Forall_app. split; [|exact Hnone].
    destruct Hev as [->|[names ->]]; repeat (constructor; [now split|]);
      constructor.
Qed.

(** *** File names *)

Lemma after_last_slash_plain (p cur : string) :
  Py.has_slash p = false -> Py.after_last_slash cur p = cur ++ p.
Proof.
  revert cur; induction p as [|c p IH]; intros cur H; simpl.
  - clear H. induction cur as [|x cur IHc]; simpl; congruence.
  - simpl in H. apply orb_false_iff in H as [Hc Hp].
    rewrite Hc, (IH _ Hp), app_assoc_s. reflexivity.
Qed.

Lemma basename_plain (p : string) :
  Py.has_slash p = false -> Py.basename p = p.
Proof. intros H. unfold Py.basename. now rewrite after_last_slash_plain. Qed.

Lemma drop_last4_short (s : string) :
  String.length s <= 4 -> Py.drop_last4 s = "".
Proof.
  intros H. unfold Py.drop_last4.
  replace (String.length s - 4) with 0 by lia. now destruct s.
Qed.

(** X12: an image whose base name has four characters or fewer keeps
    nothing of its name: its plots are saved as '_PLD.jpg' and '_PLQ.jpg'
    and its workbook as '_litter_items.xlsx', directly in the scratch
    directory, so that all such images share these files. *)
Theorem short_names_lose_their_name tmp name type :
  plain_dir tmp ->
  String.length (Py.basename name) <= 4 ->
  plot_file (output_path_of tmp name) type = tmp ++ "/_" ++ type ++ ".jpg" /\
  excel_path_of tmp name = tmp ++ "/_litter_items.xlsx".
Proof.
  intros Hplain Hshort. unfold excel_path_of, plot_file.
  rewrite (output_path_plain _ _ Hplain), (drop_last4_short _ Hshort).
  rewrite !app_assoc_s. split; reflexivity.
Qed.

(** X13: two images whose names differ in their last four characters only,
    as 'a.jpg' and 'a.png' do, get the same output path, hence the same plot
    files and the same workbook file: the later image replaces the files of
    the earlier one. *)
Theorem names_differing_in_last_four_collide tmp stem e1 e2 :
  Py.has_slash (stem ++ e1) = false ->
  Py.has_slash (stem ++ e2) = false ->
  String.length e1 = 4 -> String.length e2 = 4 ->
  output_path_of tmp (stem ++ e1) = output_path_of tmp (stem ++ e2) /\
  excel_path_of tmp (stem ++ e1) = excel_path_of tmp (stem ++ e2) /\
  forall type,
    plot_file (output_path_of tmp (stem ++ e1)) type =
    plot_file (output_path_of tmp (stem ++ e2)) type.
Proof.
  intros H1 H2 L1 L2.
  assert (E : output_path_of tmp (stem ++ e1) =
              output_path_of tmp (stem ++ e2)).
  { unfold output_path_of.
    now rewrite (basename_plain _ H1), (basename_plain _ H2),
      (drop_last4_app _ _ L1), (drop_last4_app _ _ L2). }
  unfold excel_path_of. rewrite E. repeat split; reflexivity.
Qed.

(** *** Archives of files lying side by side *)

Lemma existsb_eqb_false x (l : list string) :
  existsb (String.eqb x) l = false ->
  forall y, In y l -> (x =? y) = false.
Proof.
  induction l as [|z l IH]; simpl; [contradiction|].
  intros H y [<-|Hy]; apply orb_false_iff in H as [Hz Hl]; auto.
Qed.

Lemma dedup_distinct (l : list string) : distinct l = true -> dedup l = l.
Proof.
  induction l as [|x l IH]; simpl; [reflexivity|].
  intros H. apply andb_true_iff in H as [Hx Hl].
  apply negb_true_iff in Hx. now rewrite Hx, IH.
Qed.

Lemma first_component_plain (n : string) :
  Py.has_slash n = false -> Py.first_component n = n.
Proof.
  induction n as [|c n IH]; simpl; [reflexivity|].
  intros H. apply orb_false_iff in H as [Hc Hn]. now rewrite Hc, IH.
Qed.

Lemma flat_name_plain (n : string) :
  flat_name n = true -> Py.has_slash n = false.
Proof.
  unfold flat_name. intros H. apply andb_true_iff in H as [H _].
  now apply negb_true_iff in H.
Qed.

Lemma parent_dirs_plain (n cur : string) :
  Py.has_slash n = false -> Py.parent_dirs cur n = [].
Proof.
  revert cur; induction n as [|c n IH]; intros cur H; simpl; [reflexivity|].
  simpl in H. apply orb_false_iff in H as [Hc Hn]. now rewrite Hc, IH.
Qed.

(** An entry lying in the root of the archive is written as one new file. *)
Lemma extract_member_flat tmp (e : string * content) (fs : fsmap) :
  Py.has_slash (fst e) = false ->
  fs_lookup (tmp ++ "/" ++ fst e) fs = None ->
  extract_member tmp e fs = (fs ++ [extracted tmp e])%list.
Proof.
  intros Hflat Hnew. unfold extract_member, extracted, fs_mkdir.
  rewrite (parent_dirs_plain _ _ Hflat). cbn [fold_left].
  destruct (snd e); rewrite ?Hnew; now apply fs_write_new.
Qed.

Lemma extractall_flat tmp (members : list (string * content)) :
  forallb flat_name (map fst members) = true ->
  distinct (map fst members) = true ->
  forall fs : fsmap,
    (forall e, In e members -> fs_lookup (tmp ++ "/" ++ fst e) fs = None) ->
    extractall members tmp fs = (fs ++ map (extracted tmp) members)%list.
Proof.
  induction members as [|[n c] ms IH]; intros Hf Hd fs Hnew;
    cbn [extractall map].
  - now rewrite app_nil_r.
  - cbn [map fst distinct forallb] in Hd, Hf.
    apply andb_true_iff in Hd as [Hn Hd].
    apply andb_true_iff in Hf as [Hfn Hf].
    apply negb_true_iff in Hn.
    rewrite extract_member_flat;
      [| now apply flat_name_plain | apply (Hnew (n, c)), in_eq ].
    rewrite IH; [now rewrite <- app_assoc | exact Hf | exact Hd |].
    intros e He. rewrite fs_lookup_app, (Hnew e (in_cons _ _ _ He)).
    unfold extracted. cbn [fs_lookup fst snd]. rewrite scratch_eqb.
    now rewrite (existsb_eqb_false _ _ Hn (fst e) (in_map fst _ _ He)).
Qed.

Lemma files_under_extracted tmp (members : list (string * content)) :
  files_under tmp (map (extracted tmp) members) = members.
Proof.
  induction members as [|[n c] ms IH]; [reflexivity|].
  cbn [map extracted fst snd files_under].
  now rewrite strip_scratch, IH.
Qed.

Lemma fs_lookup_extracted tmp (members : list (string * content)) n c :
  distinct (map fst members) = true ->
  In (n, c) members ->
  fs_lookup (tmp ++ "/" ++ n) (map (extracted tmp) members) = Some c.
Proof.
  induction members as [|[n0 c0] ms IH]; intros Hd Hin; [contradiction|].
  simpl in Hd. apply andb_true_iff in Hd as [Hn Hd].
  apply negb_true_iff in Hn.
  cbn [map extracted fst snd fs_lookup]. rewrite scratch_eqb.
  destruct Hin as [[= -> ->]|Hin].
  - now rewrite String.eqb_refl.
  - rewrite (existsb_eqb_false _ _ Hn n (in_map fst _ _ Hin)).
    now apply IH.
Qed.

(** X14: for a zip upload whose archive holds entries lying side by side
    under pairwise different names, get_input_data returns the names of the
    entries, each once, in the order in which the file system lists them,
    with one path per name, the temporary directory joined with it, and
    every entry can be read back at its path: the file there holds the
    content of the entry. *)
Theorem flat_archive_round_trip data s members :
  content_type data = "application/zip" ->
  fs_lookup (filename data) (st_fs s) = Some (Zip members) ->
  flat_archive members = true ->
  let tmp := mkdtemp_name (st_fs s) in
  let names := listdir_order (map fst members) in
  Permutation names (map fst members) /\
  exists s',
    get_input_data data s =
    (Ok (names, map (fun n => PyPath (tmp ++ "/" ++ n)) names), s', []) /\
    forall n c, In (n, c) members ->
                fs_lookup (tmp ++ "/" ++ n) (st_fs s') = Some c.
Proof.
  intros Hct Hzip Hflat tmp names.
  unfold flat_archive in Hflat. apply andb_true_iff in Hflat as [Hnames Hd].
  assert (Hperm : Permutation names (map fst members))
    by apply listdir_order_perm.
  split; [exact Hperm|].
  assert (Hold : older_than tmp (fs_write tmp Dir (st_fs s)))
    by apply mkdtemp_fresh.
  assert (Hext :
    extractall members tmp (fs_write tmp Dir (st_fs s)) =
    (fs_write tmp Dir (st_fs s) ++ map (extracted tmp) members)%list).
  { apply extractall_flat; [exact Hnames | exact Hd |]. intros e _.
    apply (fs_lookup_fresh tmp); [exact Hold | apply scratch_long]. }
  assert (Hlist :
    listdir tmp (extractall members tmp (fs_write tmp Dir (st_fs s))) =
    names).
  { unfold listdir, names.
    rewrite Hext, files_under_app, (files_under_fresh _ _ Hold),
      files_under_extracted. cbn [app].
    rewrite (map_ext_in (fun e => Py.first_component (fst e)) fst);
      [now rewrite dedup_distinct|].
    intros e He. apply first_component_plain, flat_name_plain.
    rewrite forallb_forall in Hnames. apply Hnames. now apply in_map. }
  exists (mkState (extractall members tmp (fs_write tmp Dir (st_fs s)))
            (model_PLD s) (model_PLQ s)).
  split.
  - unfold get_input_data, mkdtemp, ZipFile, bind, ret, get_fs, put_fs.
    rewrite Hct. cbn -[mkdtemp_name listdir extractall].
    rewrite fs_lookup_write_neq, Hzip.
    2:{ apply eqb_length_neq.
        apply fs_lookup_In, max_path_length_bound in Hzip.
        rewrite mkdtemp_name_length. lia. }
    cbn -[mkdtemp_name listdir extractall]. fold tmp.
    rewrite Hlist.
    do 4 f_equal. apply map_ext_in. intros n Hn. f_equal.
    apply path_join_plain; [apply mkdtemp_plain|].
    apply flat_name_plain. rewrite forallb_forall in Hnames.
    apply Hnames. now apply (Permutation_in _ Hperm).
  - intros n c Hin. cbn [st_fs]. fold tmp.
    rewrite Hext, fs_lookup_app.
    rewrite (fs_lookup_fresh tmp);
      [now apply fs_lookup_extracted | exact Hold | apply scratch_long].
Qed.

(** X15: for a zip upload whose archive has no entry, without face
    detection, predict loads the models, finds nothing to enumerate and
    returns None without any error, whatever the plots and the output type
    requested, download mode included: no image is loaded and nothing is
    written besides the two temporary directories. *)
Theorem empty_archive_returns_none kw s :
  content_type (files kw) = "application/zip" ->
  fs_lookup (filename (files kw)) (st_fs s) = Some (Zip []) ->
  face_detection kw = false ->
  let tmp_input := mkdtemp_name (st_fs s) in
  let fs1 := fs_write tmp_input Dir (st_fs s) in
  predict kw s =
  (Ok None,
   mkState (fs_write (mkdtemp_name fs1) Dir fs1)
     (Some (preprocessing_warm model_name_PLD))
     (Some (preprocessing_warm model_name_PLQ)),
   [EvWarm model_name_PLD; EvWarm model_name_PLQ]).
Proof.
  intros Hct Hzip Hface tmp_input fs1.
  assert (Hlist : listdir tmp_input fs1 = []).
  { unfold listdir. subst fs1 tmp_input.
    rewrite (files_under_fresh _ _ (mkdtemp_fresh (st_fs s))).
    cbn [map dedup]. apply Permutation_nil, Permutation_sym.
    apply listdir_order_perm. }
  unfold predict, predict_setup, load_models, get_input_data, mkdtemp,
    ZipFile, bind, emit, ret, raise, get_fs, put_fs.
  rewrite Hct, Hface. cbn -[mkdtemp_name listdir].
  rewrite fs_lookup_write_neq, Hzip.
  2:{ apply eqb_length_neq.
      apply fs_lookup_In, max_path_length_bound in Hzip.
      rewrite mkdtemp_name_length. lia. }
  cbn -[mkdtemp_name listdir]. fold tmp_input. fold fs1.
  rewrite Hlist. reflexivity.
Qed.

End Runs.

(** ** The code on concrete requests *)

(** C5: the single image 'beach.jpg', stored at '/up/a' and uploaded under
    the content type 'application/octet-stream', with download mode and both
    plots: predict raises TypeError, as [get_arr_from_bin] is given the path
    of the stored file and hands it to io.BytesIO; no stage runs, no handle
    is returned and no archive is made.  The same stored file uploaded as
    'image/jpeg' goes through [Image.open] and does give the archive. *)
Theorem C5_octet_stream_download_raises :
  outcome (Demo.run Demo.octet_download) = Raise TypeError /\
  count is_PLD (events (Demo.run Demo.octet_download)) = 0 /\
  fs_lookup (Demo.tmp_single ++ ".zip")
    (st_fs (final (Demo.run Demo.octet_download))) = None /\
  filename (files Demo.octet_download) = filename (files Demo.download_both) /\
  exists members,
    outcome (Demo.run Demo.download_both) =
    Ok (Some (mkHandle (Demo.tmp_single ++ ".zip") (Zip members))).
Proof.
  repeat (split; [reflexivity|]). eexists. reflexivity.
Qed.

(** C4, the claim as stated, fails: with the output type 'email' and the
    PLD plot requested, an image uploaded as 'application/octet-stream'
    makes predict raise TypeError, and an upload whose stored file is not
    an image makes it raise as well. *)
Lemma C4_counterexample :
  ~ @no_artifact_and_no_error Demo.collab Demo.faces
      Demo.octet_email Demo.s0 /\
  ~ @no_artifact_and_no_error Demo.collab Demo.faces
      Demo.no_image_email Demo.s0.
Proof.
  split; intros H;
    (assert (Hd : "email" <> "Download") by discriminate);
    (assert (Hn : "email" <> "nextcloud") by discriminate);
    specialize (H Hd Hn eq_refl); vm_compute in H; discriminate H.
Qed.

(** C10, the claim as stated, fails: with no plot requested, an image
    uploaded as 'application/octet-stream' makes predict raise TypeError
    before the detection stage runs, and an upload whose stored file is not
    an image makes it raise as well. *)
Lemma C10_counterexample :
  ~ @no_plot_returns_none Demo.collab Demo.faces
      Demo.octet_no_plot Demo.s0 /\
  ~ @no_plot_returns_none Demo.collab Demo.faces
      Demo.no_image_no_plot Demo.s0.
Proof.
  split; intros H; specialize (H eq_refl eq_refl); vm_compute in H;
    discriminate H.
Qed.

(** C7: for the upload 'beach.jpeg' the plot is saved as 'beach._PLD.jpg':
    the name is cut by four characters, which leaves the dot of a four-letter
    extension, while the name the specification gives is 'beach_PLD.jpg',
    under which nothing is saved. *)
Theorem C7_plot_name_drops_four_characters :
  outcome (Demo.run Demo.download_jpeg) =
    Ok (Some (mkHandle (Demo.tmp_single ++ "/beach._PLD.jpg")
                (Demo.file_of "img:fig:PLD(img1)"))) /\
  In (EvSavefig (Demo.tmp_single ++ "/beach._PLD.jpg"))
     (events (Demo.run Demo.download_jpeg)) /\
  SpecName.plot_name "beach.jpeg" "PLD" = "beach_PLD.jpg" /\
  ~ In (EvSavefig
          (Demo.tmp_single ++ "/" ++ SpecName.plot_name "beach.jpeg" "PLD"))
       (events (Demo.run Demo.download_jpeg)).
Proof.
  split; [reflexivity|]. split; [vm_compute; tauto|].
  split; [reflexivity|].
  vm_compute. intros H.
  repeat (destruct H as [H|H]; [discriminate H|]). exact H.
Qed.

(** C6, the claim as stated, fails: when only the quantification plot is
    requested for the two images of the archive, both stages run and no
    workbook is written. *)
Lemma C6_counterexample :
  ~ @workbook_whenever_both_stages Demo.collab Demo.faces
      Demo.zip_quantify Demo.s0.
Proof.
  unfold workbook_whenever_both_stages. intros H.
  assert (Hno : count is_workbook
                  (events (@predict Demo.collab Demo.faces
                             Demo.zip_quantify Demo.s0)) = 0)
    by reflexivity.
  rewrite Hno in H.
  apply (Nat.lt_irrefl 0). apply H; vm_compute; lia.
Qed.

(** The theorems at the concrete requests. *)

Lemma C1_witness :
  exists h,
    outcome (Demo.run Demo.zip_download) = Ok (Some h) /\
    h_path h = download_artifact Demo.zip_download Demo.tmp_archive "a.jpg" /\
    fs_lookup (h_path h) (st_fs (final (Demo.run Demo.zip_download))) =
      Some (h_content h) /\
    In (EvOpen (h_path h)) (events (Demo.run Demo.zip_download)) /\
    loaded_files (events (Demo.run Demo.zip_download)) =
      [@PyPath Demo.collab "/tmp/tmpxxxxxx/a.jpg"] /\
    count is_PLD (events (Demo.run Demo.zip_download)) = 1.
Proof.
  apply (@C1_download_returns_on_first_image Demo.collab Demo.faces
           Demo.zip_download Demo.s0 Demo.tmp_archive "a.jpg" ["b.jpeg"]
           (@PyPath Demo.collab "/tmp/tmpxxxxxx/a.jpg") [@PyPath Demo.collab "/tmp/tmpxxxxxx/b.jpeg"]
           Demo.s1_archive Demo.t0 "img1");
    reflexivity.
Defined.

Lemma C2_witness :
  exists rest,
    events (Demo.run Demo.zip_quantify) =
    (Demo.t0 ++
     [@EvLoad Demo.collab (@PyPath Demo.collab "/tmp/tmpxxxxxx/a.jpg");
      @EvPLD Demo.collab "img1" ["a.jpg"; "b.jpeg"]
        "model:litter-assessment/models/PLD_CNN.h5";
      @EvPLDdf Demo.collab "PLD(img1)";
      @EvPLQ Demo.collab "cm:PLD(img1)" "img1" ["a.jpg"; "b.jpeg"]
        "model:litter-assessment/models/PLQ_CNN.h5"] ++ rest)%list.
Proof.
  apply (proj2 (@C2_quantification_follows_detection Demo.collab Demo.faces
                  Demo.zip_quantify Demo.s0)
           Demo.tmp_archive "a.jpg" ["b.jpeg"]
           (@PyPath Demo.collab "/tmp/tmpxxxxxx/a.jpg") [@PyPath Demo.collab "/tmp/tmpxxxxxx/b.jpeg"]
           Demo.s1_archive Demo.t0 "img1");
    reflexivity.
Defined.


Lemma C4_witness :
  outcome (Demo.run Demo.zip_email) = Ok None /\
  count is_no_output_message (events (Demo.run Demo.zip_email)) = 2.
Proof.
  assert (Hd : output_type Demo.zip_email <> "Download") by discriminate.
  assert (Hn : output_type Demo.zip_email <> "nextcloud") by discriminate.
  destruct (@C4_unmatched_output_type Demo.collab Demo.faces
              Demo.zip_email Demo.s0 Hd Hn eq_refl) as (_ & _ & Hrun).
  apply (Hrun Demo.tmp_archive ["a.jpg"; "b.jpeg"]
           [@PyPath Demo.collab "/tmp/tmpxxxxxx/a.jpg"; @PyPath Demo.collab "/tmp/tmpxxxxxx/b.jpeg"]
           Demo.s1_archive Demo.t0 ["img1"; "img2"]);
    reflexivity.
Defined.

Lemma download_both_archive_witness :
  exists members,
    outcome (Demo.run Demo.download_both) =
      Ok (Some (mkHandle (Demo.tmp_single ++ ".zip")
                  (@Zip Demo.collab members))) /\
    fs_lookup (Demo.tmp_single ++ ".zip")
      (st_fs (final (Demo.run Demo.download_both))) =
      Some (@Zip Demo.collab members) /\
    Permutation members
      [("beach_PLD.jpg", Demo.file_of "img:fig:PLD(img1)");
       ("beach_PLQ.jpg", Demo.file_of "img:fig:PLQ(cm:PLD(img1))");
       ("beach_litter_items.xlsx",
        @Xlsx Demo.collab [("Litter Detection", "df:PLD(img1)");
                           ("Litter Quantification",
                            "df:PLQ(cm:PLD(img1))")])] /\
    List.length members = 3 /\
    count_suffix ".xlsx" (map fst members) = 1 /\
    count_suffix ".jpg" (map fst members) = 2.
Proof.
  exact (@download_both_archive Demo.collab Demo.faces
           Demo.download_both Demo.s0 Demo.tmp_single "beach.jpg" []
           (@PyPath Demo.collab "/up/a") [] Demo.s1_single Demo.t0 "img1"
           eq_refl eq_refl eq_refl eq_refl eq_refl).
Defined.

Lemma C6_witness :
  (count is_workbook (events (Demo.run Demo.zip_email)) =
   count is_PLD (events (Demo.run Demo.zip_email)) /\
   count is_PLQdf (events (Demo.run Demo.zip_email)) =
   count is_PLD (events (Demo.run Demo.zip_email))) /\
  1 <= count is_PLD (events (Demo.run Demo.zip_email)) /\
  (count is_workbook (events (Demo.run Demo.zip_quantify)) = 0 /\
   count is_PLQdf (events (Demo.run Demo.zip_quantify)) = 0) /\
  count is_PLQ (events (Demo.run Demo.zip_quantify)) =
  count is_PLD (events (Demo.run Demo.zip_quantify)) /\
  1 <= count is_PLD (events (Demo.run Demo.zip_quantify)).
Proof.
  destruct (@C6_workbook_only_when_both_plots Demo.collab Demo.faces
              Demo.zip_email Demo.s0) as (Hboth & _ & _ & _ & Hruns).
  destruct (@C6_workbook_only_when_both_plots Demo.collab Demo.faces
              Demo.zip_quantify Demo.s0)
    as (_ & Hnone & Hstages & _ & Hruns').
  split; [exact (Hboth eq_refl)|].
  split.
  { exact (Hruns Demo.tmp_archive "a.jpg" ["b.jpeg"]
             (@PyPath Demo.collab "/tmp/tmpxxxxxx/a.jpg")
             [@PyPath Demo.collab "/tmp/tmpxxxxxx/b.jpeg"]
             Demo.s1_archive Demo.t0 "img1" eq_refl eq_refl). }
  split; [exact (Hnone eq_refl)|].
  split; [exact (Hstages eq_refl eq_refl)|].
  exact (Hruns' Demo.tmp_archive "a.jpg" ["b.jpeg"]
           (@PyPath Demo.collab "/tmp/tmpxxxxxx/a.jpg")
           [@PyPath Demo.collab "/tmp/tmpxxxxxx/b.jpeg"]
           Demo.s1_archive Demo.t0 "img1" eq_refl eq_refl).
Defined.

Lemma C8_witness :
  (exists paths,
     @get_input_data Demo.collab Demo.archive Demo.s0 =
     (Ok (["a.jpg"; "b.jpeg"], paths),
      mkState
        (Demo.fs0 ++
         [("/tmp/tmpxxxxxx", Dir);
          ("/tmp/tmpxxxxxx/a.jpg", Demo.file_of "img1");
          ("/tmp/tmpxxxxxx/b.jpeg", Demo.file_of "img2")])%list
        None None, []) /\
     List.length ["a.jpg"; "b.jpeg"] = List.length paths /\
     forall i n, nth_error ["a.jpg"; "b.jpeg"] i = Some n ->
                 nth_error paths i =
                 Some (@PyPath Demo.collab (Py.path_join "/tmp/tmpxxxxxx" n))) /\
  @get_input_data Demo.collab Demo.single Demo.s0 =
  (Ok (["beach.jpg"], [@PyPath Demo.collab "/up/a"]), Demo.s0, []).
Proof.
  destruct (@C8_get_input_data Demo.collab Demo.archive Demo.s0)
    as [Hzip _].
  destruct (@C8_get_input_data Demo.collab Demo.single Demo.s0)
    as [_ Hother].
  split.
  - exact (proj2 (Hzip eq_refl
                    [("a.jpg", Demo.file_of "img1");
                     ("b.jpeg", Demo.file_of "img2")] eq_refl)).
  - apply Hother. discriminate.
Defined.

Lemma C10_witness :
  Demo.run Demo.zip_no_plot =
  (Ok None, Demo.s1_archive,
   (Demo.t0 ++
    [@EvLoad Demo.collab (@PyPath Demo.collab "/tmp/tmpxxxxxx/a.jpg");
     @EvPLD Demo.collab "img1" ["a.jpg"; "b.jpeg"]
       "model:litter-assessment/models/PLD_CNN.h5";
     @EvPLDdf Demo.collab "PLD(img1)";
     @EvLoad Demo.collab (@PyPath Demo.collab "/tmp/tmpxxxxxx/b.jpeg");
     @EvPLD Demo.collab "img2" ["a.jpg"; "b.jpeg"]
       "model:litter-assessment/models/PLD_CNN.h5";
     @EvPLDdf Demo.collab "PLD(img2)"])%list).
Proof.
  destruct (@C10_no_plot_requested Demo.collab Demo.faces
              Demo.zip_no_plot Demo.s0 eq_refl eq_refl) as (_ & _ & Hrun).
  apply (Hrun Demo.tmp_archive ["a.jpg"; "b.jpeg"]
           [@PyPath Demo.collab "/tmp/tmpxxxxxx/a.jpg"; @PyPath Demo.collab "/tmp/tmpxxxxxx/b.jpeg"]
           Demo.s1_archive Demo.t0 ["img1"; "img2"]);
    reflexivity.
Defined.

(** The further properties at concrete requests. *)

Lemma handle_only_in_download_mode_witness :
  output_type Demo.zip_download = "Download" /\
  (PLD_plot Demo.zip_download || PLQ_plot Demo.zip_download)%bool = true /\
  fs_lookup (Demo.tmp_archive ++ "/a_PLD.jpg")
    (st_fs (final (Demo.run Demo.zip_download))) =
    Some (Demo.file_of "img:fig:PLD(img1)") /\
  exists pre,
    events (Demo.run Demo.zip_download) =
    (pre ++ [@EvOpen Demo.collab (Demo.tmp_archive ++ "/a_PLD.jpg")])%list.
Proof.
  exact (@handle_only_in_download_mode Demo.collab Demo.faces
           Demo.zip_download Demo.s0
           (mkHandle (Demo.tmp_archive ++ "/a_PLD.jpg")
              (Demo.file_of "img:fig:PLD(img1)"))
           eq_refl).
Defined.

Lemma nextcloud_saves_each_plot_twice_witness :
  count is_savefig (events (Demo.run Demo.zip_nextcloud)) =
  2 * count is_upload (events (Demo.run Demo.zip_nextcloud)).
Proof.
  exact (@nextcloud_saves_each_plot_twice Demo.collab Demo.faces
           Demo.zip_nextcloud Demo.s0 eq_refl).
Defined.

Lemma nextcloud_uploads_every_image_witness :
  outcome (Demo.run Demo.zip_nextcloud) = Ok None /\
  loaded_files (events (Demo.run Demo.zip_nextcloud)) =
    [@PyPath Demo.collab "/tmp/tmpxxxxxx/a.jpg";
     @PyPath Demo.collab "/tmp/tmpxxxxxx/b.jpeg"] /\
  count is_upload (events (Demo.run Demo.zip_nextcloud)) = 2 * 2.
Proof.
  exact (@nextcloud_uploads_every_image Demo.collab Demo.faces
           Demo.zip_nextcloud Demo.s0 Demo.tmp_archive ["a.jpg"; "b.jpeg"]
           [@PyPath Demo.collab "/tmp/tmpxxxxxx/a.jpg";
            @PyPath Demo.collab "/tmp/tmpxxxxxx/b.jpeg"]
           Demo.s1_archive Demo.t0 ["img1"; "img2"]
           eq_refl eq_refl eq_refl eq_refl).
Defined.

Lemma predict_keeps_existing_files_witness :
  kept (st_fs Demo.s0) (st_fs (final (Demo.run Demo.zip_nextcloud))) /\
  fs_lookup Demo.tmp_archive (st_fs (final (Demo.run Demo.zip_nextcloud))) =
  Some Dir.
Proof.
  destruct (@predict_keeps_existing_files Demo.collab Demo.faces
              Demo.zip_nextcloud Demo.s0) as [Hall Hsetup].
  split; [exact (Hall eq_refl)|].
  exact (proj2 (Hsetup Demo.tmp_archive ["a.jpg"; "b.jpeg"]
                  [@PyPath Demo.collab "/tmp/tmpxxxxxx/a.jpg";
                   @PyPath Demo.collab "/tmp/tmpxxxxxx/b.jpeg"]
                  Demo.s1_archive Demo.t0 eq_refl)).
Defined.

Lemma zip_upload_that_is_no_archive_witness :
  Demo.run Demo.missing_zip =
  (Raise BadZipFile,
   mkState (Demo.fs0 ++ [("/tmp/tmpxxxxxx", Dir)])%list
     (Some "model:litter-assessment/models/PLD_CNN.h5")
     (Some "model:litter-assessment/models/PLQ_CNN.h5"),
   [@EvWarm Demo.collab model_name_PLD; @EvWarm Demo.collab model_name_PLQ]).
Proof.
  exact (@zip_upload_that_is_no_archive Demo.collab Demo.faces
           Demo.missing_zip Demo.s0 "img1" eq_refl eq_refl).
Defined.

Lemma octet_stream_path_raises_type_error_witness :
  Demo.run Demo.octet_download =
  (Raise TypeError,
   mkState (Demo.fs0 ++ [("/tmp/tmpxxxxxx", Dir)])%list
     (Some "model:litter-assessment/models/PLD_CNN.h5")
     (Some "model:litter-assessment/models/PLQ_CNN.h5"),
   [@EvWarm Demo.collab model_name_PLD; @EvWarm Demo.collab model_name_PLQ;
    @EvLoad Demo.collab (@PyPath Demo.collab "/up/a")]).
Proof.
  exact (@octet_stream_path_raises_type_error Demo.collab Demo.faces
           Demo.octet_download Demo.s0 eq_refl eq_refl).
Defined.

Lemma single_plot_download_witness :
  outcome (Demo.run Demo.zip_download_quantify) =
    Ok (Some (mkHandle (Demo.tmp_archive ++ "/a_PLQ.jpg")
                (Demo.file_of "img:fig:PLQ(cm:PLD(img1))"))) /\
  st_fs (final (Demo.run Demo.zip_download_quantify)) =
    (st_fs Demo.s1_archive ++
     [((Demo.tmp_archive ++ "/a_PLQ.jpg")%string,
       Demo.file_of "img:fig:PLQ(cm:PLD(img1))")])%list /\
  files_under Demo.tmp_archive
    (st_fs (final (Demo.run Demo.zip_download_quantify))) =
  [("a_PLQ.jpg", Demo.file_of "img:fig:PLQ(cm:PLD(img1))")] /\
  fs_lookup (Demo.tmp_archive ++ ".zip")
    (st_fs (final (Demo.run Demo.zip_download_quantify))) = None /\
  Forall (fun e => is_workbook e = false /\ is_archive e = false)
    (events (Demo.run Demo.zip_download_quantify)).
Proof.
  exact (@single_plot_download Demo.collab Demo.faces
           Demo.zip_download_quantify Demo.s0 Demo.tmp_archive
           "a.jpg" ["b.jpeg"]
           (@PyPath Demo.collab "/tmp/tmpxxxxxx/a.jpg")
           [@PyPath Demo.collab "/tmp/tmpxxxxxx/b.jpeg"]
           Demo.s1_archive Demo.t0 "img1"
           eq_refl eq_refl eq_refl eq_refl eq_refl).
Defined.

Lemma short_names_lose_their_name_witness :
  plot_file (output_path_of "/tmp/scratch" "up/a.b") "PLD" =
    "/tmp/scratch/_PLD.jpg" /\
  excel_path_of "/tmp/scratch" "up/a.b" = "/tmp/scratch/_litter_items.xlsx".
Proof.
  apply (short_names_lose_their_name "/tmp/scratch" "up/a.b" "PLD").
  - split; reflexivity.
  - vm_compute. lia.
Defined.

Lemma names_differing_in_last_four_collide_witness :
  output_path_of "/tmp/scratch" "a.jpg" = output_path_of "/tmp/scratch" "a.png"
  /\
  excel_path_of "/tmp/scratch" "a.jpg" = excel_path_of "/tmp/scratch" "a.png"
  /\
  forall type,
    plot_file (output_path_of "/tmp/scratch" "a.jpg") type =
    plot_file (output_path_of "/tmp/scratch" "a.png") type.
Proof.
  exact (names_differing_in_last_four_collide "/tmp/scratch" "a" ".jpg"
           ".png" eq_refl eq_refl eq_refl eq_refl).
Defined.

Lemma flat_archive_round_trip_witness :
  Permutation ["a.jpg"; "b.jpeg"] ["a.jpg"; "b.jpeg"] /\
  exists s',
    @get_input_data Demo.collab Demo.archive Demo.s0 =
    (Ok (["a.jpg"; "b.jpeg"],
         [@PyPath Demo.collab "/tmp/tmpxxxxxx/a.jpg";
          @PyPath Demo.collab "/tmp/tmpxxxxxx/b.jpeg"]), s', []) /\
    forall n c,
      In (n, c) [("a.jpg", Demo.file_of "img1");
                 ("b.jpeg", Demo.file_of "img2")] ->
      fs_lookup ("/tmp/tmpxxxxxx" ++ "/" ++ n) (st_fs s') = Some c.
Proof.
  exact (@flat_archive_round_trip Demo.collab Demo.archive Demo.s0
           [("a.jpg", Demo.file_of "img1"); ("b.jpeg", Demo.file_of "img2")]
           eq_refl eq_refl eq_refl).
Defined.

Lemma empty_archive_returns_none_witness :
  @predict Demo.collab Demo.faces Demo.empty_zip Demo.s_empty =
  (Ok None,
   mkState [("/up/e", @Zip Demo.collab []); ("/tmp/tmpxxxxxx", Dir);
            ("/tmp/tmpxxxxxxxxxxxxxxx", Dir)]
     (Some "model:litter-assessment/models/PLD_CNN.h5")
     (Some "model:litter-assessment/models/PLQ_CNN.h5"),
   [@EvWarm Demo.collab model_name_PLD; @EvWarm Demo.collab model_name_PLQ]).
Proof.
  exact (@empty_archive_returns_none Demo.collab Demo.faces
           Demo.empty_zip Demo.s_empty eq_refl eq_refl eq_refl).
Defined.
